(** * scRNAseq_collector: the request handler of [scRNAseq_collector.py]

    A shallow embedding of the Flask handler [fetch_rnaseq_data] and of
    the helpers it calls, together with the properties of its
    orchestration sequence (sanitise, search, fetch details, resolve the
    destination directory, download).

    Conventions.
    - A Python [str] is a [string]: the UTF-8 bytes of its code points.
      Every byte of a non-ASCII code point is at least 128, so it lies
      outside each ASCII character class the program uses; the regular
      expressions and [str.replace] therefore act on the bytes exactly as
      they act on the code points.
    - Values decoded from JSON are [pyval]s.
    - Every call that leaves the process (HTTP, the terminal prompt, the
      filesystem, FTP, the logger) appends one [event] to a trace; what
      the outside world answers is given by an [Env] of oracles, each of
      which sees the whole history so far. *)

From Stdlib Require Import String Ascii List Bool Arith ZArith Lia.
From Stdlib Require Import DecimalString.
Import ListNotations.

Local Open Scope string_scope.
Local Open Scope list_scope.

Set Implicit Arguments.
Set Warnings "-register-all".

(* ================================================================= *)
(** ** Strings *)

Section Strings.

(** The double quote, written by its code. *)
Definition dquote : ascii := ascii_of_nat 34.

Definition chars (s : string) : list ascii := list_ascii_of_string s.

(** [s.startswith(p)], returning what follows the prefix. *)
Fixpoint strip_prefix (p s : string) : option string :=
  match p, s with
  | EmptyString, _ => Some s
  | String a p', String b s' =>
      if Ascii.eqb a b then strip_prefix p' s' else None
  | String _ _, EmptyString => None
  end.

Definition startswith (s p : string) : bool :=
  match strip_prefix p s with Some _ => true | None => false end.

Fixpoint endswith_char (s : string) (c : ascii) : bool :=
  match s with
  | EmptyString => false
  | String a EmptyString => Ascii.eqb a c
  | String _ s' => endswith_char s' c
  end.

(** The longest prefix of [s] whose characters all satisfy [f]. *)
Fixpoint take_while (f : ascii -> bool) (s : string) : string :=
  match s with
  | EmptyString => EmptyString
  | String a s' => if f a then String a (take_while f s') else EmptyString
  end.

Definition is_empty (s : string) : bool :=
  match s with EmptyString => true | _ => false end.

(** [str.lower] on the ASCII letters.  Other bytes are left alone; the
    handler only compares the result with the one-letter strings
    ['s'] and ['n'], and no non-ASCII character lowercases to either. *)
Definition lower_char (c : ascii) : ascii :=
  let n := nat_of_ascii c in
  if ((65 <=? n) && (n <=? 90))%nat then ascii_of_nat (n + 32) else c.

Fixpoint lower (s : string) : string :=
  match s with
  | EmptyString => EmptyString
  | String a s' => String (lower_char a) (lower s')
  end.

(** [old in s]: [old] occurs in [s] as a substring. *)
Fixpoint contains (old s : string) : bool :=
  startswith s old
  || match s with
     | EmptyString => false
     | String _ s' => contains old s'
     end.

(** [s.replace(old, new)] for a non-empty [old]: scan from the left;
    at an occurrence of [old] emit [new] and skip the occurrence,
    otherwise copy one character.  [skip] counts the characters of
    the current occurrence still to be skipped. *)
Fixpoint replace_from (old new : string) (skip : nat) (s : string) : string :=
  match s with
  | EmptyString => EmptyString
  | String a s' =>
      match skip with
      | S k => replace_from old new k s'
      | O =>
          if startswith s old
          then (new ++ replace_from old new (String.length old - 1) s')%string
          else String a (replace_from old new 0 s')
      end
  end.

Definition replace (s old new : string) : string :=
  replace_from old new 0 s.

(** [str(n)] for a non-negative integer. *)
Definition str_of_nat (n : nat) : string :=
  NilZero.string_of_uint (Nat.to_uint n).

(** [os.path.join(a, b)] on POSIX. *)
Definition path_join (a b : string) : string :=
  if startswith b "/" then b
  else if is_empty a || endswith_char a "/" then (a ++ b)%string
  else (a ++ "/" ++ b)%string.

End Strings.

(* ================================================================= *)
(** ** Regular expressions used by the program *)

Section Regex.

(** One item of a bracketed character class. *)
Inductive class_item : Type :=
| Range (lo hi : ascii)
| Single (c : ascii).

Definition item_matches (i : class_item) (c : ascii) : bool :=
  match i with
  | Range lo hi =>
      ((nat_of_ascii lo <=? nat_of_ascii c) && (nat_of_ascii c <=? nat_of_ascii hi))%nat
  | Single x => Ascii.eqb x c
  end.

Definition class_matches (cls : list class_item) (c : ascii) : bool :=
  existsb (fun i => item_matches i c) cls.

(** [re.sub('[^cls]', repl, s)]: each character outside the class is a
    match of length one and is replaced by [repl]; the others are
    copied. *)
Fixpoint re_sub_negclass (cls : list class_item) (repl s : string) : string :=
  match s with
  | EmptyString => EmptyString
  | String a s' =>
      if class_matches cls a
      then String a (re_sub_negclass cls repl s')
      else (repl ++ re_sub_negclass cls repl s')%string
  end.

(** The class [a-zA-Z0-9_ ] of line 32. *)
Definition word_or_space : list class_item :=
  [Range "a" "z"; Range "A" "Z"; Range "0" "9"; Single "_"; Single " "]%char.

Definition not_dquote (c : ascii) : bool := negb (Ascii.eqb c dquote).

(** [re.search] of line 100, returning [group(0)].  The pattern is the
    literal ftp:// followed by one or more characters other than the
    double quote: the match starts at the leftmost position where
    ftp:// is followed by at least one such character and runs
    greedily up to the next double quote or the end of the text. *)
Fixpoint re_search_ftp (s : string) : option string :=
  match s with
  | EmptyString => None
  | String _ s' =>
      match strip_prefix "ftp://" s with
      | Some rest =>
          match take_while not_dquote rest with
          | EmptyString => re_search_ftp s'
          | m => Some ("ftp://" ++ m)%string
          end
      | None => re_search_ftp s'
      end
  end.

End Regex.

(** Line 31-32. *)
Definition sanitize_input (user_input : string) : string :=
  re_sub_negclass word_or_space EmptyString user_input.

(* ================================================================= *)
(** ** Python values and exceptions *)

(** What [json] decoding produces.  A float is kept only up to whether
    it is zero, the one thing the handler can observe of it (its truth
    value).  A [PDict] lists the items of the dict in insertion order,
    one per key; a lookup takes the first binding of the key. *)
Inductive pyval : Type :=
| PNone
| PBool (b : bool)
| PInt (z : Z)
| PFloat (is_zero : bool)
| PStr (s : string)
| PList (items : list pyval)
| PDict (items : list (string * pyval)).

(** The exception classes the handler's [except] clauses tell apart. *)
Inductive exn : Type :=
| RequestException   (* requests.exceptions.*: ConnectionError, Timeout, HTTPError, ... *)
| FtpError           (* ftplib.Error and its subclasses *)
| OSError            (* OSError raised outside requests: sockets, files *)
| EOFError
| TypeError
| AttributeError
| HTTPException      (* werkzeug: BadRequest, UnsupportedMediaType *)
| OtherException     (* any other subclass of Exception *)
| BaseExceptionOnly. (* KeyboardInterrupt, SystemExit *)

Inductive result (A : Type) : Type :=
| Ok (a : A)
| Raise (e : exn).
Arguments Ok {A} a.
Arguments Raise {A} e.

Section PyValues.

(** [bool(v)]. *)
Definition truthy (v : pyval) : bool :=
  match v with
  | PNone => false
  | PBool b => b
  | PInt z => negb (Z.eqb z 0)
  | PFloat is_zero => negb is_zero
  | PStr s => negb (is_empty s)
  | PList items => match items with [] => false | _ => true end
  | PDict items => match items with [] => false | _ => true end
  end.

Fixpoint assoc (k : string) (items : list (string * pyval)) : option pyval :=
  match items with
  | [] => None
  | (k', v) :: rest => if String.eqb k k' then Some v else assoc k rest
  end.

(** [v.get(k, default)]: only a dict has the method. *)
Definition py_get (v : pyval) (k : string) (default : pyval) : result pyval :=
  match v with
  | PDict items =>
      match assoc k items with
      | Some x => Ok x
      | None => Ok default
      end
  | _ => Raise AttributeError
  end.

Definition is_continuation (c : ascii) : bool :=
  let n := nat_of_ascii c in (128 <=? n)%nat && (n <? 192)%nat.

Definition starts_with_continuation (s : string) : bool :=
  match s with
  | EmptyString => false
  | String b _ => is_continuation b
  end.

(** The code points of a string, each as a one-character [str]: a byte
    is grouped with the UTF-8 continuation bytes that follow it. *)
Fixpoint codepoints (s : string) : list string :=
  match s with
  | EmptyString => []
  | String a s' =>
      match codepoints s' with
      | g :: gs =>
          if starts_with_continuation s' then String a g :: gs
          else String a EmptyString :: g :: gs
      | [] => [String a EmptyString]
      end
  end.

(** The items a [for] loop over [v] visits; numbers, booleans and
    [None] are not iterable. *)
Definition py_iter (v : pyval) : result (list pyval) :=
  match v with
  | PList items => Ok items
  | PStr s => Ok (map PStr (codepoints s))
  | PDict items => Ok (map (fun kv => PStr (fst kv)) items)
  | _ => Raise TypeError
  end.

End PyValues.

(* ================================================================= *)
(** ** The outside world *)

Record http_response : Type := {
  status_code : nat;
  text : string;
  (** what [response.json()] gives for the body *)
  json : result pyval
}.

(** One call leaving the process, with what came back. *)
Inductive event : Type :=
| EvHttpGet (url : string) (params : list (string * pyval)) (timeout : nat)
            (out : result http_response)
| EvPathExists (path : string) (out : bool)
| EvInput (prompt : string) (out : result string)
| EvRmtree (path : string) (out : result unit)
| EvMakedirs (path : string) (exist_ok : bool) (out : result unit)
| EvFtpConnect (host : string) (out : result unit)
| EvFtpLogin (out : result unit)
| EvFtpCwd (dir : string) (out : result unit)
| EvFtpNlst (out : result (list string))
| EvOpenWb (path : string) (out : result unit)
| EvFtpRetrbinary (cmd : string) (into : string) (out : result unit)
| EvClose (path : string)
| EvFtpQuit (out : result unit)
| EvLogInfo (msg : string)
| EvLogError (msg : string) (e : exn).

Definition trace : Type := list event.

(** The answers of the outside world.  Each oracle is given the history
    of the request so far, so an answer may depend on everything that
    happened before (a directory exists once it was created, a server
    fails on its third call, ...). *)
Record Env : Type := {
  env_http_get : trace -> string -> list (string * pyval) -> nat -> result http_response;
  env_path_exists : trace -> string -> bool;
  env_input : trace -> string -> result string;
  env_rmtree : trace -> string -> result unit;
  env_makedirs : trace -> string -> bool -> result unit;
  env_ftp_connect : trace -> string -> result unit;
  env_ftp_login : trace -> result unit;
  env_ftp_cwd : trace -> string -> result unit;
  env_ftp_nlst : trace -> result (list string);
  env_open_wb : trace -> string -> result unit;
  env_ftp_retrbinary : trace -> string -> string -> result unit;
  env_ftp_quit : trace -> result unit
}.

(* ================================================================= *)
(** ** The monad of the handler: exceptions over a growing trace *)

Definition M (A : Type) : Type := trace -> result A * trace.

Definition ret {A} (a : A) : M A := fun h => (Ok a, h).

Definition raise {A} (e : exn) : M A := fun h => (Raise e, h).

Definition bind {A B} (m : M A) (k : A -> M B) : M B :=
  fun h =>
    match m h with
    | (Ok a, h') => k a h'
    | (Raise e, h') => (Raise e, h')
    end.

Definition lift {A} (r : result A) : M A := fun h => (r, h).

(** Ask the world: the oracle's answer is recorded, then returned or
    raised. *)
Definition perform {A} (oracle : trace -> result A) (ev : result A -> event) : M A :=
  fun h => let out := oracle h in (out, h ++ [ev out]).

Definition emit (ev : event) : M unit := fun h => (Ok tt, h ++ [ev]).

(** [try: m finally: emit ev]. *)
Definition finally {A} (m : M A) (ev : event) : M A :=
  fun h => let '(r, h') := m h in (r, h' ++ [ev]).

Declare Scope py_scope.
Delimit Scope py_scope with py.
Notation "x <- c ;; k" := (bind c (fun x => k))
  (at level 61, c at next level, right associativity) : py_scope.
Notation "c ;; k" := (bind c (fun _ => k))
  (at level 61, right associativity) : py_scope.
Local Open Scope py_scope.

(* ================================================================= *)
(** ** The handler *)

(** What [jsonify(body), status] returns. *)
Record response : Type := {
  body : pyval;
  status : nat
}.

(** How a call of the handler ends: with a response, or with an
    exception that none of its [except] clauses catches. *)
Inductive outcome : Type :=
| Responded (r : response)
| Propagated (e : exn).

(** [request.get_json()]: it raises a werkzeug [HTTPException] when the
    body is missing, is not declared as JSON or does not parse, and
    otherwise returns the decoded value. *)
Inductive request : Type :=
| BadBody
| Body (data : pyval).

(** Lines 27-28. *)
Definition NCBI_BASE_URL : string :=
  "https://eutils.ncbi.nlm.nih.gov/entrez/eutils/esearch.fcgi".
Definition NCBI_FETCH_URL : string :=
  "https://eutils.ncbi.nlm.nih.gov/entrez/eutils/efetch.fcgi".

(** Line 80. *)
Definition base_dir : string := "/home/caheri_salas/db_scRNAseq".

Definition ftp_host : string := "ftp.ncbi.nlm.nih.gov".
Definition ftp_host_prefix : string := "ftp://ftp.ncbi.nlm.nih.gov/".

(** The argument of [ftp.cwd] on line 108. *)
Definition remote_dir (ftp_url : string) : string :=
  replace ftp_url ftp_host_prefix EmptyString.

Definition prompt_text (dir : string) : string :=
  ("El directorio " ++ dir ++
   " ya existe. ¿Deseas sobrescribirlo? (s/n) o crear una nueva carpeta (escribe el nombre de la nueva carpeta): ")%string.

Definition resp_missing_organism : response :=
  {| body := PDict [("error", PStr "Organism field is required.")]; status := 400 |}.
Definition resp_no_data : response :=
  {| body := PDict [("message", PStr "No data found for the specified query.")]; status := 404 |}.
Definition resp_cancelled : response :=
  {| body := PDict [("message", PStr "Operación cancelada por el usuario.")]; status := 200 |}.
Definition resp_success : response :=
  {| body := PDict [("message", PStr "All data fetched and saved successfully.")]; status := 200 |}.
Definition resp_ncbi_failure : response :=
  {| body := PDict [("error", PStr "Failed to fetch data from NCBI.")]; status := 500 |}.
Definition resp_ftp_failure : response :=
  {| body := PDict [("error", PStr "Failed to connect to FTP server.")]; status := 500 |}.
Definition resp_unexpected : response :=
  {| body := PDict [("error", PStr "An unexpected error occurred.")]; status := 500 |}.

(** Lines 135-137. *)
Definition health_check : response :=
  {| body := PDict [("status", PStr "API is running.")]; status := 200 |}.

(** [response.raise_for_status()]: an [HTTPError], which is a
    [RequestException], for a 4xx or 5xx status. *)
Definition error_status (r : http_response) : bool :=
  ((400 <=? status_code r) && (status_code r <? 600))%nat.

Definition raise_for_status (r : http_response) : M unit :=
  if error_status r then raise RequestException else ret tt.

(** [sanitize_input] called on a decoded value: [re.sub] raises a
    [TypeError] unless it is given a [str]. *)
Definition sanitize_value (v : pyval) : M string :=
  match v with
  | PStr s => ret (sanitize_input s)
  | _ => raise TypeError
  end.

(** Line 62: [result.get('esearchresult', {}).get('idlist', [])]. *)
Definition id_list_of (result_ : pyval) : result pyval :=
  match py_get result_ "esearchresult" (PDict []) with
  | Ok esearchresult => py_get esearchresult "idlist" (PList [])
  | Raise e => Raise e
  end.

(** Where the destination directory resolution of lines 83-95 ends. *)
Inductive destination : Type :=
| Proceed (dir : string)
| Cancelled.

Section Handler.

(** [os.getenv("NCBI_API_KEY")] of line 13. *)
Variable API_KEY : option string.
Variable env : Env.

Definition api_key_value : pyval :=
  match API_KEY with
  | Some k => PStr k
  | None => PNone
  end.

Definition requests_get (url : string) (params : list (string * pyval))
           (timeout : nat) : M http_response :=
  perform (fun h => env_http_get env h url params timeout)
          (EvHttpGet url params timeout).

Definition path_exists (p : string) : M bool :=
  fun h => let b := env_path_exists env h p in (Ok b, h ++ [EvPathExists p b]).

Definition input (prompt : string) : M string :=
  perform (fun h => env_input env h prompt) (EvInput prompt).

Definition rmtree (p : string) : M unit :=
  perform (fun h => env_rmtree env h p) (EvRmtree p).

Definition makedirs (p : string) (exist_ok : bool) : M unit :=
  perform (fun h => env_makedirs env h p exist_ok) (EvMakedirs p exist_ok).

Definition ftp_connect (host : string) : M unit :=
  perform (fun h => env_ftp_connect env h host) (EvFtpConnect host).

Definition ftp_login : M unit :=
  perform (env_ftp_login env) EvFtpLogin.

Definition ftp_cwd (dir : string) : M unit :=
  perform (fun h => env_ftp_cwd env h dir) (EvFtpCwd dir).

Definition ftp_nlst : M (list string) :=
  perform (env_ftp_nlst env) EvFtpNlst.

Definition open_wb (p : string) : M unit :=
  perform (fun h => env_open_wb env h p) (EvOpenWb p).

Definition ftp_retrbinary (cmd into : string) : M unit :=
  perform (fun h => env_ftp_retrbinary env h cmd into) (EvFtpRetrbinary cmd into).

Definition ftp_quit : M unit :=
  perform (env_ftp_quit env) EvFtpQuit.

Definition log_info (msg : string) : M unit := emit (EvLogInfo msg).

(** Lines 47-54. *)
Definition search_params (query : string) : list (string * pyval) :=
  [("db", PStr "gds"); ("term", PStr query); ("retmode", PStr "json");
   ("api_key", api_key_value)].

(** Lines 69-74. *)
Definition fetch_params (study_id : pyval) : list (string * pyval) :=
  [("db", PStr "gds"); ("id", study_id); ("retmode", PStr "xml");
   ("api_key", api_key_value)].

(** Lines 67-77: the loop over [id_list], accumulating [details]. *)
Fixpoint fetch_details (id_list : list pyval) (details : list string)
  : M (list string) :=
  match id_list with
  | [] => ret details
  | study_id :: rest =>
      fetch_response <- requests_get NCBI_FETCH_URL (fetch_params study_id) 10 ;;
      raise_for_status fetch_response ;;
      fetch_details rest (details ++ [text fetch_response])
  end.

(** Lines 83-95. *)
Definition resolve_destination : M destination :=
  exists_ <- path_exists base_dir ;;
  if exists_ : bool then
    user_input <- input (prompt_text base_dir) ;;
    if String.eqb (lower user_input) "s" then
      rmtree base_dir ;;
      makedirs base_dir false ;;
      ret (Proceed base_dir)
    else if String.eqb (lower user_input) "n" then
      ret Cancelled
    else
      let new_dir := path_join "/home/caheri_salas" user_input in
      makedirs new_dir true ;;
      ret (Proceed new_dir)
  else
    makedirs base_dir false ;;
    ret (Proceed base_dir).

(** Lines 114-118: the files of one study. *)
Fixpoint download_files (study_dir : string) (files : list string) : M unit :=
  match files with
  | [] => ret tt
  | file :: rest =>
      let local_filepath := path_join study_dir file in
      open_wb local_filepath ;;
      finally (ftp_retrbinary ("RETR " ++ file)%string local_filepath)
              (EvClose local_filepath) ;;
      log_info ("Archivo descargado: " ++ local_filepath)%string ;;
      download_files study_dir rest
  end.

(** Lines 99-120: the body of the download loop for one record. *)
Definition download_study (dir : string) (idx : nat) (study : string) : M unit :=
  match re_search_ftp study with
  | Some ftp_url =>
      log_info ("Descargando desde: " ++ ftp_url)%string ;;
      ftp_connect ftp_host ;;
      ftp_login ;;
      ftp_cwd (remote_dir ftp_url) ;;
      files <- ftp_nlst ;;
      let study_dir := path_join dir ("study_" ++ str_of_nat idx)%string in
      makedirs study_dir true ;;
      download_files study_dir files ;;
      ftp_quit
  | None => ret tt
  end.

(** Line 98: [for idx, study in enumerate(details, start=idx)]. *)
Fixpoint download_all (dir : string) (idx : nat) (details : list string) : M unit :=
  match details with
  | [] => ret tt
  | study :: rest =>
      download_study dir idx study ;;
      download_all dir (S idx) rest
  end.

(** Lines 39-42: the three fields, each sanitised as it is read. *)
Definition read_query (req : request) : M (string * string * string) :=
  data <- match req with
          | BadBody => raise HTTPException
          | Body data => ret data
          end ;;
  organism <- (v <- lift (py_get data "organism" (PStr EmptyString)) ;; sanitize_value v) ;;
  tissue <- (v <- lift (py_get data "tissue" (PStr "hippocampus")) ;; sanitize_value v) ;;
  data_type <- (v <- lift (py_get data "data_type" (PStr "rna-seq")) ;; sanitize_value v) ;;
  ret (organism, tissue, data_type).

(** Line 48. *)
Definition build_query (organism tissue data_type : string) : string :=
  (organism ++ " " ++ tissue ++ " " ++ data_type)%string.

(** Lines 57-62: the search call and the identifiers it yields. *)
Definition search (query : string) : M pyval :=
  response <- requests_get NCBI_BASE_URL (search_params query) 10 ;;
  raise_for_status response ;;
  result <- lift (json response) ;;
  lift (id_list_of result).

(** Lines 98-122: the download loop and the final response. *)
Definition download_into (dir : string) (details : list string) : M response :=
  download_all dir 1 details ;;
  ret resp_success.

(** Lines 80-122: resolve the destination, then download. *)
Definition save_studies (details : list string) : M response :=
  dest <- resolve_destination ;;
  match dest with
  | Cancelled => ret resp_cancelled
  | Proceed dir => download_into dir details
  end.

(** Lines 38-122: the body of the [try]. *)
Definition try_body (req : request) : M response :=
  q <- read_query req ;;
  let '(organism, tissue, data_type) := q in
  if is_empty organism then ret resp_missing_organism
  else
    id_list <- search (build_query organism tissue data_type) ;;
    if negb (truthy id_list) then ret resp_no_data
    else
      ids <- lift (py_iter id_list) ;;
      details <- fetch_details ids [] ;;
      save_studies details.

(** Lines 124-132: the [except] clauses, tried in order.
    [RequestException] derives from [OSError] but is caught by the
    first clause; [ftplib.all_errors] is [ftplib.Error], [OSError] and
    [EOFError]; the last clause catches every other [Exception]. *)
Definition except_clauses (e : exn) (h : trace) : outcome * trace :=
  match e with
  | RequestException =>
      (Responded resp_ncbi_failure,
       h ++ [EvLogError "Error fetching data from NCBI: " e])
  | FtpError | OSError | EOFError =>
      (Responded resp_ftp_failure,
       h ++ [EvLogError "Error connecting to FTP: " e])
  | BaseExceptionOnly => (Propagated e, h)
  | _ =>
      (Responded resp_unexpected,
       h ++ [EvLogError "Unexpected error: " e])
  end.

(** Lines 35-132.  A request starts with an empty history. *)
Definition fetch_rnaseq_data (req : request) : outcome * trace :=
  match try_body req [] with
  | (Ok r, h) => (Responded r, h)
  | (Raise e, h) => except_clauses e h
  end.

End Handler.

(* ================================================================= *)
(** ** Observations on traces *)

Section Observations.

Definition is_http (ev : event) : bool :=
  match ev with
  | EvHttpGet _ _ _ _ => true
  | _ => false
  end.

Definition is_ftp (ev : event) : bool :=
  match ev with
  | EvFtpConnect _ _ | EvFtpLogin _ | EvFtpCwd _ _ | EvFtpNlst _
  | EvFtpRetrbinary _ _ _ | EvFtpQuit _ => true
  | _ => false
  end.

(** A call that leaves the machine. *)
Definition is_outbound (ev : event) : bool := is_http ev || is_ftp ev.

(** A call that deletes, creates or writes something on disk. *)
Definition touches_disk (ev : event) : bool :=
  match ev with
  | EvRmtree _ _ | EvMakedirs _ _ _ | EvOpenWb _ _
  | EvFtpRetrbinary _ _ _ | EvClose _ => true
  | _ => false
  end.

(** Neither FTP traffic nor a change on disk: what a request that
    downloads nothing and leaves the filesystem alone is made of. *)
Definition harmless (ev : event) : bool :=
  negb (is_ftp ev) && negb (touches_disk ev).

Definition is_detail_fetch (ev : event) : bool :=
  match ev with
  | EvHttpGet url _ _ _ => String.eqb url NCBI_FETCH_URL
  | _ => false
  end.

(** The identifiers of the detail fetches of a trace, in order. *)
Fixpoint issued_ids (tr : trace) : list pyval :=
  match tr with
  | [] => []
  | EvHttpGet url params _ _ :: rest =>
      if String.eqb url NCBI_FETCH_URL
      then match assoc "id" params with
           | Some i => i :: issued_ids rest
           | None => issued_ids rest
           end
      else issued_ids rest
  | _ :: rest => issued_ids rest
  end.


(** What the search step read from its response, when the trace
    starts with a search call that succeeded. *)
Definition search_yield (tr : trace) : option pyval :=
  match tr with
  | EvHttpGet url _ _ (Ok r) :: _ =>
      if String.eqb url NCBI_BASE_URL && negb (error_status r)
      then match json r with
           | Ok res => match id_list_of res with
                       | Ok v => Some v
                       | Raise _ => None
                       end
           | Raise _ => None
           end
      else None
  | _ => None
  end.

(** The identifiers the detail loop is to visit. *)
Definition identifiers (tr : trace) : option (list pyval) :=
  match search_yield tr with
  | Some v => match py_iter v with
              | Ok ids => Some ids
              | Raise _ => None
              end
  | None => None
  end.

(** The search term of the first call of a trace. *)
Definition search_term (tr : trace) : option pyval :=
  match tr with
  | EvHttpGet url params _ _ :: _ =>
      if String.eqb url NCBI_BASE_URL then assoc "term" params else None
  | _ => None
  end.


End Observations.

(* ================================================================= *)
(** ** The properties of the specification, in its own words *)

Section SpecWords.

(** An ASCII letter, a digit, the underscore or the space. *)
Definition allowed_code (n : nat) : Prop :=
  (65 <= n <= 90) \/ (97 <= n <= 122) \/ (48 <= n <= 57) \/ n = 95 \/ n = 32.

Definition allowed_char (c : ascii) : Prop := allowed_code (nat_of_ascii c).

Definition allowedb (c : ascii) : bool :=
  let n := nat_of_ascii c in
  ((65 <=? n) && (n <=? 90) || (97 <=? n) && (n <=? 122)
   || (48 <=? n) && (n <=? 57) || (n =? 95) || (n =? 32))%nat.

(** [t] is ftp:// followed by one or more characters, none of them a
    double quote. *)
Definition matches_ftp_pattern (t : string) : Prop :=
  exists m, t = ("ftp://" ++ m)%string /\ m <> EmptyString /\
            forall c, In c (chars m) -> c <> dquote.

Definition has_ftp_match (s : string) : Prop :=
  exists pre t post, s = (pre ++ t ++ post)%string /\ matches_ftp_pattern t.

(** The organism field is absent, or is a string that sanitisation
    empties. *)
Definition organism_missing (items : list (string * pyval)) : Prop :=
  assoc "organism" items = None \/
  exists s, assoc "organism" items = Some (PStr s) /\
            sanitize_input s = EmptyString.

(** An optional field is absent or holds a string. *)
Definition absent_or_str (k : string) (items : list (string * pyval)) : Prop :=
  assoc k items = None \/ exists s, assoc k items = Some (PStr s).

(** The request carries no JSON object. *)
Definition not_json_object (req : request) : Prop :=
  match req with
  | BadBody => True
  | Body (PDict _) => False
  | Body _ => True
  end.

End SpecWords.

(* ================================================================= *)
(** ** Sample worlds *)

Section Samples.

Definition http_ok (body_text : string) (decoded : result pyval) : http_response :=
  {| status_code := 200; text := body_text; json := decoded |}.

Definition search_reply (ids : list pyval) : http_response :=
  http_ok EmptyString
          (Ok (PDict [("esearchresult", PDict [("idlist", PList ids)])])).

(** A world scripted by: the identifiers the search returns, the
    answer to the detail fetch of each identifier, whether the base
    directory exists, and what the operator types.  FTP and the disk
    always succeed; every study lists the same two files. *)
Definition scripted (ids : list pyval)
           (detail : option pyval -> result http_response)
           (dir_exists : bool) (answer : string) : Env :=
  {| env_http_get := fun _ url params _ =>
       if String.eqb url NCBI_BASE_URL then Ok (search_reply ids)
       else detail (assoc "id" params);
     env_path_exists := fun _ _ => dir_exists;
     env_input := fun _ _ => Ok answer;
     env_rmtree := fun _ _ => Ok tt;
     env_makedirs := fun _ _ _ => Ok tt;
     env_ftp_connect := fun _ _ => Ok tt;
     env_ftp_login := fun _ => Ok tt;
     env_ftp_cwd := fun _ _ => Ok tt;
     env_ftp_nlst := fun _ => Ok ["matrix.mtx.gz"; "barcodes.tsv.gz"];
     env_open_wb := fun _ _ => Ok tt;
     env_ftp_retrbinary := fun _ _ _ => Ok tt;
     env_ftp_quit := fun _ => Ok tt |}.

(** A record whose markup links to a directory on the NCBI server. *)
Definition xml_with_link : string :=
  ("<a href=" ++ String dquote "ftp://ftp.ncbi.nlm.nih.gov/geo/series/GSE1nnn/GSE1234/"
   ++ String dquote "/>")%string.

(** A record with no link at all. *)
Definition xml_without_link : string := "<Item Name='title'>no files</Item>".

(** A record whose link names another host. *)
Definition xml_other_host : string :=
  ("<a href=" ++ String dquote "ftp://ftp.example.org/pub/geo/"
   ++ String dquote "/>")%string.

Definition always (s : string) : option pyval -> result http_response :=
  fun _ => Ok (http_ok s (Raise OtherException)).

(** The second study's detail call is answered 503. *)
Definition second_fails : option pyval -> result http_response :=
  fun i =>
    match i with
    | Some (PStr "100002") =>
        Ok {| status_code := 503; text := EmptyString; json := Raise OtherException |}
    | _ => Ok (http_ok xml_with_link (Raise OtherException))
    end.

Definition two_ids : list pyval := [PStr "100001"; PStr "100002"].
Definition three_ids : list pyval := [PStr "100001"; PStr "100002"; PStr "100003"].

Definition req_mouse : request := Body (PDict [("organism", PStr "mouse")]).

End Samples.

(* ================================================================= *)
(** ** The paths of a request *)

(** What the download loop may emit: log lines, FTP traffic, the
    per-study directory and the files written into it. *)
Definition is_download_event (ev : event) : bool :=
  match ev with
  | EvLogInfo _ | EvFtpConnect _ _ | EvFtpLogin _ | EvFtpCwd _ _
  | EvFtpNlst _ | EvFtpRetrbinary _ _ _ | EvFtpQuit _
  | EvMakedirs _ true _ | EvOpenWb _ _ | EvClose _ => true
  | _ => false
  end.

(** What may follow the operator's answer: the overwrite of the base
    directory, and the download. *)
Definition after_prompt_event (ev : event) : bool :=
  is_download_event ev
  || match ev with
     | EvRmtree p _ | EvMakedirs p false _ => String.eqb p base_dir
     | _ => false
     end.

(** Every [ftp.cwd] of the event, if it is one, goes to [target]. *)
Definition cwd_to (target : string) (ev : event) : bool :=
  match ev with
  | EvFtpCwd d _ => String.eqb d target
  | _ => true
  end.

Definition is_log_error (ev : event) : bool :=
  match ev with
  | EvLogError _ _ => true
  | _ => false
  end.

(** What may follow the detail fetches: the probe of the base
    directory, the prompt, what follows the prompt, and the log line of
    an [except] clause. *)
Definition tail_event (ev : event) : bool :=
  after_prompt_event ev
  || match ev with
     | EvPathExists p _ => String.eqb p base_dir
     | EvInput _ _ | EvLogError _ _ => true
     | _ => false
     end.

(** [m] extends the history it is given, by events of class [P] only. *)
Definition emits {A} (P : event -> bool) (m : M A) : Prop :=
  forall h, exists evs,
    snd (m h) = h ++ evs /\ Forall (fun ev => P ev = true) evs.

(** The exception an HTTP call ends in, if any: the one [requests.get]
    raised, or the [HTTPError] of [raise_for_status]. *)
Definition fetch_error (out : result http_response) : option exn :=
  match out with
  | Raise e => Some e
  | Ok r => if error_status r then Some RequestException else None
  end.

(** What [search] returns, as a function of the answer to its call. *)
Definition decode_search (out : result http_response) : result pyval :=
  match out with
  | Raise e => Raise e
  | Ok r =>
      if error_status r then Raise RequestException
      else match json r with
           | Ok res => id_list_of res
           | Raise e => Raise e
           end
  end.

Section Paths.

Variable API_KEY : option string.
Variable env : Env.

Definition search_event (q : string) (out : result http_response) : event :=
  EvHttpGet NCBI_BASE_URL (search_params API_KEY q) 10 out.

Definition detail_event (i : pyval) (out : result http_response) : event :=
  EvHttpGet NCBI_FETCH_URL (fetch_params API_KEY i) 10 out.

(** A detail fetch that succeeded. *)
Definition ok_event (p : pyval * http_response) : event :=
  detail_event (fst p) (Ok (snd p)).

Definition good (p : pyval * http_response) : Prop :=
  error_status (snd p) = false.

(** Lines 85-122 once the operator has answered [user_input]. *)
Definition after_answer (details : list string) (user_input : string)
  : M response :=
  if String.eqb (lower user_input) "s" then
    rmtree env base_dir ;;
    makedirs env base_dir false ;;
    download_into env base_dir details
  else if String.eqb (lower user_input) "n" then
    ret resp_cancelled
  else
    makedirs env (path_join "/home/caheri_salas" user_input) true ;;
    download_into env (path_join "/home/caheri_salas" user_input) details.

(** The end of the [try] statement. *)
Definition conclude (r : result response * trace) : outcome * trace :=
  match r with
  | (Ok resp, h) => (Responded resp, h)
  | (Raise e, h) => except_clauses e h
  end.

(** The seven ways a request can go, by the step at which it ends. *)
Inductive Run : outcome * trace -> Prop :=
| Run_rejected e :
    e = HTTPException \/ e = AttributeError \/ e = TypeError ->
    Run (Responded resp_unexpected, [EvLogError "Unexpected error: " e])
| Run_missing_organism :
    Run (Responded resp_missing_organism, [])
| Run_search_failed q out e :
    decode_search out = Raise e ->
    Run (except_clauses e [search_event q out])
| Run_no_data q out v :
    decode_search out = Ok v -> truthy v = false ->
    Run (Responded resp_no_data, [search_event q out])
| Run_not_iterable q out v e :
    decode_search out = Ok v -> truthy v = true ->
    py_iter v = Raise e ->
    Run (except_clauses e [search_event q out])
| Run_fetch_failed q out v oks i rest fout e :
    decode_search out = Ok v -> truthy v = true ->
    py_iter v = Ok (map fst oks ++ i :: rest) ->
    Forall good oks ->
    fetch_error fout = Some e ->
    Run (except_clauses e
           (search_event q out :: map ok_event oks ++ [detail_event i fout]))
| Run_saved q out v oks :
    decode_search out = Ok v -> truthy v = true ->
    py_iter v = Ok (map fst oks) ->
    Forall good oks ->
    Run (conclude
           (save_studies env (map (fun p => text (snd p)) oks)
                         (search_event q out :: map ok_event oks))).

End Paths.

(* ================================================================= *)
(** ** Failures, files and destinations *)

(** The exception a call ended in, if it raised one. *)
Definition raised (ev : event) : option exn :=
  match ev with
  | EvHttpGet _ _ _ (Raise e) | EvInput _ (Raise e) | EvRmtree _ (Raise e)
  | EvMakedirs _ _ (Raise e) | EvFtpConnect _ (Raise e) | EvFtpLogin (Raise e)
  | EvFtpCwd _ (Raise e) | EvFtpNlst (Raise e) | EvOpenWb _ (Raise e)
  | EvFtpRetrbinary _ _ (Raise e) | EvFtpQuit (Raise e) => Some e
  | _ => None
  end.

(** No call of the trace raised. *)
Definition quiet (evs : trace) : Prop :=
  Forall (fun ev => raised ev = None) evs.

Definition is_close (ev : event) : bool :=
  match ev with
  | EvClose _ => true
  | _ => false
  end.

(** [m] stops at the first call that raises: whatever it emits is
    quiet, except that when it ends in an exception the last call may
    be the one that raised it, followed only by the closing of files. *)
Definition fail_fast {A} (m : M A) : Prop :=
  forall h, exists evs,
    snd (m h) = h ++ evs
    /\ match fst (m h) with
       | Ok _ => quiet evs
       | Raise e =>
           quiet evs
           \/ exists pre ev closes,
               evs = pre ++ ev :: closes /\ quiet pre /\ raised ev = Some e
               /\ Forall (fun c => is_close c = true) closes
       end.

(** The files opened for writing, and the files closed, in order. *)
Fixpoint opened (tr : trace) : list string :=
  match tr with
  | [] => []
  | EvOpenWb p (Ok _) :: rest => p :: opened rest
  | _ :: rest => opened rest
  end.

Fixpoint closed (tr : trace) : list string :=
  match tr with
  | [] => []
  | EvClose p :: rest => p :: closed rest
  | _ :: rest => closed rest
  end.

(** [m] closes what it opens. *)
Definition balanced {A} (m : M A) : Prop :=
  forall h, exists evs, snd (m h) = h ++ evs /\ opened evs = closed evs.

(** The texts of the detail fetches of a trace that came back. *)
Fixpoint fetched_texts (tr : trace) : list string :=
  match tr with
  | [] => []
  | EvHttpGet url _ _ (Ok r) :: rest =>
      if String.eqb url NCBI_FETCH_URL then text r :: fetched_texts rest
      else fetched_texts rest
  | _ :: rest => fetched_texts rest
  end.


(** The responses the handler can give. *)
Definition the_responses : list response :=
  [resp_missing_organism; resp_no_data; resp_cancelled; resp_success;
   resp_ncbi_failure; resp_ftp_failure; resp_unexpected].

Definition prompt_event (a : result string) : event :=
  EvInput (prompt_text base_dir) a.

Section SavedPaths.

Variable env : Env.
Variable details : list string.

(** [dl] is what the download loop into [dir] emits, ending in [r]. *)
Definition downloads (dir : string) (r : result response) (dl : trace) : Prop :=
  exists h0, download_into env dir details h0 = (r, h0 ++ dl).

(** The nine ways lines 80-122 can go: what they return and emit. *)
Inductive Saved : result response -> trace -> Prop :=
| Saved_fresh_failed e :
    Saved (Raise e)
          [EvPathExists base_dir false; EvMakedirs base_dir false (Raise e)]
| Saved_fresh r dl :
    downloads base_dir r dl ->
    Saved r ([EvPathExists base_dir false; EvMakedirs base_dir false (Ok tt)] ++ dl)
| Saved_no_answer e :
    Saved (Raise e) [EvPathExists base_dir true; prompt_event (Raise e)]
| Saved_rmtree_failed a e :
    String.eqb (lower a) "s" = true ->
    Saved (Raise e)
          [EvPathExists base_dir true; prompt_event (Ok a);
           EvRmtree base_dir (Raise e)]
| Saved_recreate_failed a e :
    String.eqb (lower a) "s" = true ->
    Saved (Raise e)
          [EvPathExists base_dir true; prompt_event (Ok a);
           EvRmtree base_dir (Ok tt); EvMakedirs base_dir false (Raise e)]
| Saved_overwritten a r dl :
    String.eqb (lower a) "s" = true ->
    downloads base_dir r dl ->
    Saved r ([EvPathExists base_dir true; prompt_event (Ok a);
              EvRmtree base_dir (Ok tt); EvMakedirs base_dir false (Ok tt)] ++ dl)
| Saved_cancelled a :
    String.eqb (lower a) "s" = false ->
    String.eqb (lower a) "n" = true ->
    Saved (Ok resp_cancelled) [EvPathExists base_dir true; prompt_event (Ok a)]
| Saved_redirect_failed a e :
    String.eqb (lower a) "s" = false ->
    String.eqb (lower a) "n" = false ->
    Saved (Raise e)
          [EvPathExists base_dir true; prompt_event (Ok a);
           EvMakedirs (path_join "/home/caheri_salas" a) true (Raise e)]
| Saved_redirected a r dl :
    String.eqb (lower a) "s" = false ->
    String.eqb (lower a) "n" = false ->
    downloads (path_join "/home/caheri_salas" a) r dl ->
    Saved r ([EvPathExists base_dir true; prompt_event (Ok a);
              EvMakedirs (path_join "/home/caheri_salas" a) true (Ok tt)] ++ dl).

End SavedPaths.

(** Something went wrong with the call: it raised, or it is an HTTP call
    that came back with a 4xx or 5xx status. *)
Definition went_wrong (ev : event) : bool :=
  match raised ev with
  | Some _ => true
  | None =>
      match ev with
      | EvHttpGet _ _ _ (Ok r) => error_status r
      | _ => false
      end
  end.

(** The world [env], except that [os.makedirs] always raises [e]. *)
Definition makedirs_raises (e : exn) (env : Env) : Env :=
  {| env_http_get := env_http_get env;
     env_path_exists := env_path_exists env;
     env_input := env_input env;
     env_rmtree := env_rmtree env;
     env_makedirs := fun _ _ _ => Raise e;
     env_ftp_connect := env_ftp_connect env;
     env_ftp_login := env_ftp_login env;
     env_ftp_cwd := env_ftp_cwd env;
     env_ftp_nlst := env_ftp_nlst env;
     env_open_wb := env_open_wb env;
     env_ftp_retrbinary := env_ftp_retrbinary env;
     env_ftp_quit := env_ftp_quit env |}.

Definition is_search (ev : event) : bool :=
  match ev with
  | EvHttpGet url _ _ _ => String.eqb url NCBI_BASE_URL
  | _ => false
  end.

Definition is_rmtree (ev : event) : bool :=
  match ev with
  | EvRmtree _ _ => true
  | _ => false
  end.

(** The prompt, or the deletion of a directory. *)
Definition asks_or_deletes (ev : event) : bool :=
  match ev with
  | EvInput _ _ | EvRmtree _ _ => true
  | _ => false
  end.

(** The probe of a directory that is not there. *)
Definition is_fresh_probe (ev : event) : bool :=
  match ev with
  | EvPathExists _ false => true
  | _ => false
  end.

(** The opening or the closing of a local file. *)
Definition is_file_event (ev : event) : bool :=
  match ev with
  | EvOpenWb _ _ | EvClose _ => true
  | _ => false
  end.

(* ================================================================= *)
(** * Properties *)

(** ** The sanitizer *)

Lemma class_word_or_space (c : ascii) :
  class_matches word_or_space c = allowedb c.
Proof.
  destruct c as [b0 b1 b2 b3 b4 b5 b6 b7].
  destruct b0, b1, b2, b3, b4, b5, b6, b7; vm_compute; reflexivity.
Qed.

Lemma allowedb_spec (c : ascii) : allowedb c = true <-> allowed_char c.
Proof.
  unfold allowedb, allowed_char, allowed_code.
  generalize (nat_of_ascii c); intro n.
  rewrite !orb_true_iff, !andb_true_iff, !Nat.leb_le, !Nat.eqb_eq.
  lia.
Qed.

Lemma sanitize_input_cons (a : ascii) (s : string) :
  sanitize_input (String a s) =
  if allowedb a then String a (sanitize_input s) else sanitize_input s.
Proof.
  unfold sanitize_input; cbn [re_sub_negclass].
  rewrite class_word_or_space.
  destruct (allowedb a); reflexivity.
Qed.

Lemma sanitize_input_filter (s : string) :
  chars (sanitize_input s) = filter allowedb (chars s).
Proof.
  induction s as [|a s IH]; [reflexivity|].
  rewrite sanitize_input_cons. unfold chars in *; simpl.
  destruct (allowedb a); simpl; now rewrite IH.
Qed.

Lemma sanitize_input_idempotent (s : string) :
  sanitize_input (sanitize_input s) = sanitize_input s.
Proof.
  induction s as [|a s IH]; [reflexivity|].
  rewrite sanitize_input_cons.
  destruct (allowedb a) eqn:Ha; [|exact IH].
  rewrite sanitize_input_cons, Ha, IH. reflexivity.
Qed.

(** C1.  For every input string, [sanitize_input] returns exactly the
    characters of the input that are ASCII letters, digits, underscore
    or space, in their original order (the sub-list picked out by that
    test); so every character of the output is one of those, and
    sanitizing twice equals sanitizing once. *)
Theorem C1_sanitize_input_whitelist :
  forall s : string,
    chars (sanitize_input s) = filter allowedb (chars s)
    /\ (forall c, allowedb c = true <-> allowed_char c)
    /\ Forall allowed_char (chars (sanitize_input s))
    /\ sanitize_input (sanitize_input s) = sanitize_input s.
Proof.
  intro s. split; [apply sanitize_input_filter|].
  split; [apply allowedb_spec|].
  split; [|apply sanitize_input_idempotent].
  rewrite sanitize_input_filter.
  apply Forall_forall. intros c Hc.
  apply filter_In in Hc. now apply allowedb_spec.
Qed.

(* ================================================================= *)
(** ** The monad *)

Lemma bind_ok {A B} (m : M A) (k : A -> M B) (h h' : trace) (a : A) :
  m h = (Ok a, h') -> bind m k h = k a h'.
Proof. intro H. unfold bind. now rewrite H. Qed.

Lemma bind_raise {A B} (m : M A) (k : A -> M B) (h h' : trace) (e : exn) :
  m h = (Raise e, h') -> bind m k h = (Raise e, h').
Proof. intro H. unfold bind. now rewrite H. Qed.

(* ================================================================= *)
(** ** The steps of the handler *)

Section Steps.

Variable API_KEY : option string.
Variable env : Env.

(** A field is read and sanitised without any call. *)
Lemma read_field (data : pyval) (k : string) (default : pyval) (h : trace) :
  (exists e, (e = AttributeError \/ e = TypeError)
             /\ (v <- lift (py_get data k default) ;; sanitize_value v) h
                = (Raise e, h))
  \/ (exists s, (v <- lift (py_get data k default) ;; sanitize_value v) h
                = (Ok s, h)).
Proof.
  unfold bind, lift, py_get, sanitize_value, ret, raise.
  destruct data as [| | | | |? |items];
    try (left; exists AttributeError; split; [tauto | reflexivity]).
  destruct (assoc k items) as [v|]; [|destruct default as [| | | |s| |]];
    try destruct v as [| | | |s| |];
    try (left; exists TypeError; split; [tauto | reflexivity]);
    right; eexists; reflexivity.
Qed.

(** Reading the query makes no call and depends on the body alone. *)
Lemma read_query_cases (req : request) (h : trace) :
  (exists e, (e = HTTPException \/ e = AttributeError \/ e = TypeError)
             /\ read_query req h = (Raise e, h))
  \/ (exists o t d, read_query req h = (Ok (o, t, d), h)).
Proof.
  destruct req as [|data].
  - left; exists HTTPException; split; [now left | reflexivity].
  - unfold read_query.
    rewrite (@bind_ok _ _ (ret data) _ h h data eq_refl).
    destruct (read_field data "organism" (PStr EmptyString) h)
      as [(e & He & Hr) | (o & Hr)];
      [left; exists e; split; [tauto | now apply bind_raise]|].
    rewrite (bind_ok _ _ _ Hr).
    destruct (read_field data "tissue" (PStr "hippocampus") h)
      as [(e & He & Ht) | (t & Ht)];
      [left; exists e; split; [tauto | now apply bind_raise]|].
    rewrite (bind_ok _ _ _ Ht).
    destruct (read_field data "data_type" (PStr "rna-seq") h)
      as [(e & He & Hd) | (d & Hd)];
      [left; exists e; split; [tauto | now apply bind_raise]|].
    rewrite (bind_ok _ _ _ Hd).
    right. exists o, t, d. reflexivity.
Qed.

Lemma search_eq (q : string) (h : trace) :
  search API_KEY env q h =
  let out := env_http_get env h NCBI_BASE_URL (search_params API_KEY q) 10 in
  (decode_search out, h ++ [search_event API_KEY q out]).
Proof.
  unfold search, bind, requests_get, perform, search_event, decode_search,
    raise_for_status, lift, raise, ret.
  destruct (env_http_get env h NCBI_BASE_URL (search_params API_KEY q) 10)
    as [r|e]; [|reflexivity].
  destruct (error_status r); [reflexivity|].
  destruct (json r); reflexivity.
Qed.

Lemma fetch_details_cons (i : pyval) (ids : list pyval)
      (acc : list string) (h : trace) :
  fetch_details API_KEY env (i :: ids) acc h =
  let out := env_http_get env h NCBI_FETCH_URL (fetch_params API_KEY i) 10 in
  let h1 := h ++ [detail_event API_KEY i out] in
  match out with
  | Raise e => (Raise e, h1)
  | Ok r =>
      if error_status r then (Raise RequestException, h1)
      else fetch_details API_KEY env ids (acc ++ [text r]) h1
  end.
Proof.
  cbn [fetch_details].
  unfold bind, requests_get, perform, detail_event, raise_for_status, raise, ret.
  destruct (env_http_get env h NCBI_FETCH_URL (fetch_params API_KEY i) 10)
    as [r|e]; [|reflexivity].
  destruct (error_status r); reflexivity.
Qed.

(** The detail loop: either every fetch succeeded, or the loop stopped
    at the first one that did not, with nothing issued after it. *)
Lemma fetch_details_cases (ids : list pyval) :
  forall (acc : list string) (h : trace),
    (exists oks,
        ids = map fst oks /\ Forall good oks /\
        fetch_details API_KEY env ids acc h =
        (Ok (acc ++ map (fun p => text (snd p)) oks),
         h ++ map (ok_event API_KEY) oks))
    \/ (exists oks i rest fout e,
           ids = map fst oks ++ i :: rest /\ Forall good oks /\
           fetch_error fout = Some e /\
           fetch_details API_KEY env ids acc h =
           (Raise e, h ++ map (ok_event API_KEY) oks
                       ++ [detail_event API_KEY i fout])).
Proof.
  induction ids as [|i ids IH]; intros acc h.
  - left; exists []; cbn. rewrite !app_nil_r. auto.
  - rewrite fetch_details_cons. cbv zeta.
    destruct (env_http_get env h NCBI_FETCH_URL (fetch_params API_KEY i) 10)
      as [r|e].
    + destruct (error_status r) eqn:Hst.
      * right. exists [], i, ids, (Ok r), RequestException.
        cbn [map app fetch_error]. rewrite Hst. auto.
      * destruct (IH (acc ++ [text r]) (h ++ [detail_event API_KEY i (Ok r)]))
          as [(oks & -> & Hg & Heq) | (oks & j & rest & fout & e & -> & Hg & He & Heq)].
        -- left. exists ((i, r) :: oks). split; [reflexivity|].
           split; [constructor; [exact Hst | exact Hg]|].
           rewrite Heq. cbn [map fst snd app]. rewrite <- !app_assoc.
           reflexivity.
        -- right. exists ((i, r) :: oks), j, rest, fout, e.
           split; [reflexivity|].
           split; [constructor; [exact Hst | exact Hg]|].
           split; [exact He|].
           rewrite Heq. cbn [map app]. rewrite <- !app_assoc.
           reflexivity.
    + right. exists [], i, ids, (Raise e), e. cbn [map app fetch_error]. auto.
Qed.

(** Every request follows one of the seven paths. *)
Lemma fetch_rnaseq_data_Run (req : request) :
  Run API_KEY env (fetch_rnaseq_data API_KEY env req).
Proof.
  unfold fetch_rnaseq_data, try_body. unfold bind at 1.
  destruct (read_query_cases req []) as [(e & He & ->) | (o & t & d & ->)].
  - destruct He as [-> | [-> | ->]]; cbn; apply Run_rejected; tauto.
  - destruct (is_empty o); [apply Run_missing_organism|].
    unfold bind at 1. rewrite search_eq. cbn zeta.
    set (q := build_query o t d).
    set (out := env_http_get env [] NCBI_BASE_URL (search_params API_KEY q) 10).
    cbn [app].
    destruct (decode_search out) as [v|e] eqn:Hd;
      [|now apply Run_search_failed].
    destruct (truthy v) eqn:Hv; cbn [negb];
      [|now apply Run_no_data with (v := v)].
    unfold bind at 1. unfold lift at 1.
    destruct (py_iter v) as [ids|e] eqn:Hi;
      [|now apply Run_not_iterable with (v := v)].
    unfold bind at 1.
    destruct (fetch_details_cases ids [] [search_event API_KEY q out])
      as [(oks & Hids & Hg & ->) | (oks & j & rest & fout & e & Hids & Hg & He & ->)].
    + cbn [app]. subst ids.
      apply Run_saved with (v := v); assumption.
    + cbn [app]. subst ids.
      apply Run_fetch_failed with (v := v) (rest := rest); assumption.
Qed.

End Steps.

(* ================================================================= *)
(** ** What each step may emit *)

Section Emits.

Context {A B : Type} (P : event -> bool).

Lemma emits_ret (a : A) : emits P (ret a).
Proof. intro h; exists []; cbn. now rewrite app_nil_r. Qed.

Lemma emits_raise (e : exn) : emits P (@raise A e).
Proof. intro h; exists []; cbn. now rewrite app_nil_r. Qed.

Lemma emits_bind (m : M A) (k : A -> M B) :
  emits P m -> (forall a, emits P (k a)) -> emits P (bind m k).
Proof.
  intros Hm Hk h. unfold bind.
  destruct (Hm h) as (evs & Heq & Hall).
  destruct (m h) as [[a|e] h']; cbn in Heq; subst h'.
  - destruct (Hk a (h ++ evs)) as (evs' & Heq' & Hall').
    exists (evs ++ evs'). rewrite Heq', app_assoc. split; [reflexivity|].
    now apply Forall_app.
  - exists evs. now split.
Qed.

Lemma emits_perform (oracle : trace -> result A) (ev : result A -> event) :
  (forall out, P (ev out) = true) -> emits P (perform oracle ev).
Proof.
  intros Hev h. exists [ev (oracle h)]. split; [reflexivity|].
  constructor; [apply Hev | constructor].
Qed.

Lemma emits_finally (m : M A) (ev : event) :
  emits P m -> P ev = true -> emits P (finally m ev).
Proof.
  intros Hm Hev h. unfold finally.
  destruct (Hm h) as (evs & Heq & Hall).
  destruct (m h) as [r h']; cbn in Heq; subst h'.
  exists (evs ++ [ev]). cbn. rewrite app_assoc. split; [reflexivity|].
  apply Forall_app; split; [exact Hall | now constructor].
Qed.

End Emits.

Lemma emits_emit (P : event -> bool) (ev : event) :
  P ev = true -> emits P (emit ev).
Proof.
  intros Hev h. exists [ev]. split; [reflexivity | now constructor].
Qed.

Lemma emits_weaken {A} (P Q : event -> bool) (m : M A) :
  (forall ev, P ev = true -> Q ev = true) -> emits P m -> emits Q m.
Proof.
  intros HPQ Hm h. destruct (Hm h) as (evs & Heq & Hall).
  exists evs. split; [exact Heq|].
  eapply Forall_impl; [|exact Hall]. exact HPQ.
Qed.

Section DownloadEmits.

Variable env : Env.

Ltac emits_step :=
  first [ apply emits_ret
        | apply emits_perform; intros; reflexivity
        | apply emits_emit; reflexivity
        | apply emits_finally; [|reflexivity]
        | apply emits_bind; [|intros] ].

Lemma download_files_emits (study_dir : string) (files : list string) :
  emits is_download_event (download_files env study_dir files).
Proof.
  induction files as [|file rest IH]; cbn [download_files].
  - apply emits_ret.
  - unfold open_wb, ftp_retrbinary, log_info.
    repeat emits_step. exact IH.
Qed.

Lemma download_study_emits (dir : string) (idx : nat) (study : string) :
  emits is_download_event (download_study env dir idx study).
Proof.
  unfold download_study.
  destruct (re_search_ftp study); [|apply emits_ret].
  unfold log_info, ftp_connect, ftp_login, ftp_cwd, ftp_nlst, makedirs, ftp_quit.
  repeat first [ apply download_files_emits | emits_step ].
Qed.

Lemma download_all_emits (dir : string) (details : list string) :
  forall idx, emits is_download_event (download_all env dir idx details).
Proof.
  induction details as [|study rest IH]; intro idx; cbn [download_all].
  - apply emits_ret.
  - apply emits_bind; [apply download_study_emits | intros; apply IH].
Qed.

End DownloadEmits.

(* ================================================================= *)
(** ** Resolving the destination *)

Section Destination.

Variable env : Env.

Lemma save_studies_eq (details : list string) (h : trace) :
  save_studies env details h =
  let b := env_path_exists env h base_dir in
  let h1 := h ++ [EvPathExists base_dir b] in
  if b then
    let a := env_input env h1 (prompt_text base_dir) in
    let h2 := h1 ++ [EvInput (prompt_text base_dir) a] in
    match a with
    | Ok user_input => after_answer env details user_input h2
    | Raise e => (Raise e, h2)
    end
  else
    (makedirs env base_dir false ;; download_into env base_dir details) h1.
Proof.
  unfold save_studies, resolve_destination, after_answer.
  unfold bind at 1 2. unfold path_exists. cbv zeta.
  destruct (env_path_exists env h base_dir).
  - unfold bind at 1. unfold input, perform. cbv zeta.
    destruct (env_input env _ (prompt_text base_dir)) as [ui|e]; [|reflexivity].
    destruct (String.eqb (lower ui) "s").
    + unfold bind, rmtree, makedirs, perform, ret.
      destruct (env_rmtree env _ base_dir); [|reflexivity].
      destruct (env_makedirs env _ base_dir false); reflexivity.
    + destruct (String.eqb (lower ui) "n"); [reflexivity|].
      unfold bind, makedirs, perform, ret.
      destruct (env_makedirs env _ _ true); reflexivity.
  - unfold bind, makedirs, perform, ret.
    destruct (env_makedirs env _ base_dir false); reflexivity.
Qed.

Lemma download_into_emits (dir : string) (details : list string) :
  emits after_prompt_event (download_into env dir details).
Proof.
  apply emits_weaken with (P := is_download_event).
  - intros ev Hev. unfold after_prompt_event. now rewrite Hev.
  - apply emits_bind; [apply download_all_emits | intros; apply emits_ret].
Qed.

Lemma after_answer_emits (details : list string) (user_input : string) :
  emits after_prompt_event (after_answer env details user_input).
Proof.
  unfold after_answer.
  destruct (String.eqb (lower user_input) "s").
  - unfold rmtree, makedirs.
    apply emits_bind; [apply emits_perform; intros; reflexivity | intros].
    apply emits_bind; [apply emits_perform; intros; reflexivity | intros].
    apply download_into_emits.
  - destruct (String.eqb (lower user_input) "n"); [apply emits_ret|].
    unfold makedirs.
    apply emits_bind; [apply emits_perform; intros; reflexivity | intros].
    apply download_into_emits.
Qed.

(** The shape of everything that follows the detail fetches. *)
Lemma save_studies_shape (details : list string) (h : trace) :
  exists b evs,
    snd (save_studies env details h) = h ++ EvPathExists base_dir b :: evs
    /\ ((b = false /\ Forall (fun ev => after_prompt_event ev = true) evs)
        \/ (b = true /\
            exists a evs',
              evs = EvInput (prompt_text base_dir) a :: evs'
              /\ Forall (fun ev => after_prompt_event ev = true) evs'
              /\ forall ans, a = Ok ans -> lower ans = "n" ->
                   evs' = [] /\
                   fst (save_studies env details h) = Ok resp_cancelled)).
Proof.
  rewrite save_studies_eq. cbv zeta.
  destruct (env_path_exists env h base_dir).
  - exists true.
    set (h1 := h ++ [EvPathExists base_dir true]).
    destruct (env_input env h1 (prompt_text base_dir)) as [ui|e].
    + destruct (after_answer_emits details ui
                  (h1 ++ [EvInput (prompt_text base_dir) (Ok ui)]))
        as (evs' & Heq & Hall).
      exists (EvInput (prompt_text base_dir) (Ok ui) :: evs').
      split.
      * rewrite Heq. unfold h1. rewrite <- !app_assoc. reflexivity.
      * right. split; [reflexivity|].
        exists (Ok ui), evs'. split; [reflexivity|]. split; [exact Hall|].
        intros ans [= <-] Hn.
        revert Heq. unfold after_answer. rewrite Hn. cbn [String.eqb Ascii.eqb].
        cbn. intro Heq. split; [|reflexivity].
        apply app_inv_head with (l := h1 ++ [EvInput (prompt_text base_dir) (Ok ui)]).
        now rewrite app_nil_r.
    + exists [EvInput (prompt_text base_dir) (Raise e)].
      split.
      * cbn [snd]. unfold h1. rewrite <- app_assoc. reflexivity.
      * right. split; [reflexivity|].
        exists (Raise e), []. split; [reflexivity|]. split; [constructor|].
        intros ans [=].
  - exists false.
    set (h1 := h ++ [EvPathExists base_dir false]).
    assert (Hem : emits after_prompt_event
                    (makedirs env base_dir false ;; download_into env base_dir details)).
    { apply emits_bind; [apply emits_perform; intros; reflexivity | intros].
      apply download_into_emits. }
    destruct (Hem h1) as (evs & Heq & Hall).
    exists evs. split.
    + rewrite Heq. unfold h1. rewrite <- app_assoc. reflexivity.
    + left. now split.
Qed.

End Destination.

(* ================================================================= *)
(** ** The end of a request *)

Lemma base_url_is_not_fetch_url : String.eqb NCBI_BASE_URL NCBI_FETCH_URL = false.
Proof. reflexivity. Qed.

Lemma except_clauses_trace (e : exn) (h : trace) :
  snd (except_clauses e h) = h
  \/ exists m, snd (except_clauses e h) = h ++ [EvLogError m e].
Proof. destruct e; cbn; eauto. Qed.


Lemma conclude_trace (r : result response) (h : trace) :
  snd (conclude (r, h)) = h
  \/ exists m e, snd (conclude (r, h)) = h ++ [EvLogError m e].
Proof.
  destruct r as [resp|e]; cbn [conclude]; [now left|].
  destruct (except_clauses_trace e h) as [H | (m & H)]; eauto.
Qed.


Section TraceFacts.

Variable API_KEY : option string.

Lemma search_yield_decode (q : string) (out : result http_response)
      (rest : trace) (v : pyval) :
  search_yield (search_event API_KEY q out :: rest) = Some v <->
  decode_search out = Ok v.
Proof.
  unfold search_event, search_yield, decode_search.
  rewrite String.eqb_refl.
  destruct out as [r|e]; [|split; discriminate].
  destruct (error_status r); cbn [andb negb]; [split; discriminate|].
  destruct (json r) as [res|e]; [|split; discriminate].
  destruct (id_list_of res); split; congruence.
Qed.

Lemma issued_ids_app (l1 l2 : trace) :
  issued_ids (l1 ++ l2) = issued_ids l1 ++ issued_ids l2.
Proof.
  induction l1 as [|ev l1 IH]; [reflexivity|].
  destruct ev; cbn [issued_ids app]; try exact IH.
  destruct (String.eqb url NCBI_FETCH_URL); [|exact IH].
  destruct (assoc "id" params); [|exact IH].
  cbn [app]. now rewrite IH.
Qed.

Lemma issued_ids_ok_events (oks : list (pyval * http_response)) :
  issued_ids (map (ok_event API_KEY) oks) = map fst oks.
Proof.
  induction oks as [|p oks IH]; [reflexivity|].
  cbn [map]. unfold ok_event at 1, detail_event.
  cbn [issued_ids]. rewrite String.eqb_refl.
  unfold fetch_params at 1. cbn [assoc String.eqb Ascii.eqb Bool.eqb].
  now rewrite IH.
Qed.


Lemma ok_events_harmless (oks : list (pyval * http_response)) :
  Forall (fun ev => harmless ev = true) (map (ok_event API_KEY) oks).
Proof.
  apply Forall_forall. intros ev Hin.
  apply in_map_iff in Hin. destruct Hin as (p & <- & _). reflexivity.
Qed.

Lemma ok_events_http (oks : list (pyval * http_response)) (ev : event) :
  In ev (map (ok_event API_KEY) oks) -> is_http ev = true.
Proof.
  intro Hin. apply in_map_iff in Hin. destruct Hin as (p & <- & _). reflexivity.
Qed.

End TraceFacts.

Lemma firstn_middle {A} (l1 : list A) (x : A) (l2 : list A) :
  firstn (S (length l1)) (l1 ++ x :: l2) = l1 ++ [x].
Proof.
  induction l1 as [|a l1 IH]; [reflexivity|].
  cbn [length app]. rewrite firstn_cons. cbn [app]. f_equal. exact IH.
Qed.


(* ================================================================= *)
(** ** Validation of the request *)

Lemma read_query_missing (items : list (string * pyval)) (h : trace) :
  organism_missing items ->
  read_query (Body (PDict items)) h = (Raise TypeError, h)
  \/ exists t d, read_query (Body (PDict items)) h = (Ok (EmptyString, t, d), h).
Proof.
  intros Hmiss.
  unfold read_query, bind, lift, py_get, sanitize_value, ret, raise.
  destruct Hmiss as [-> | (s & -> & Hs)]; [|rewrite Hs];
    (destruct (assoc "tissue" items) as [[]|]; try (left; reflexivity);
     (destruct (assoc "data_type" items) as [[]|]; try (left; reflexivity);
      right; eexists _, _; reflexivity)).
Qed.

Lemma read_query_missing_typed (items : list (string * pyval)) (h : trace) :
  organism_missing items ->
  absent_or_str "tissue" items -> absent_or_str "data_type" items ->
  exists t d, read_query (Body (PDict items)) h = (Ok (EmptyString, t, d), h).
Proof.
  intros Hmiss Ht Hd.
  unfold read_query, bind, lift, py_get, sanitize_value, ret, raise.
  destruct Hmiss as [-> | (s & -> & Hs)]; [|rewrite Hs];
    (destruct Ht as [-> | (t & ->)]; destruct Hd as [-> | (d & ->)];
     eexists _, _; reflexivity).
Qed.

(** C2, as amended.  When the organism field of a JSON object body is
    absent or is a string that sanitisation empties, the handler makes
    no outbound HTTP or FTP call; and when moreover the tissue and
    data_type fields are each absent or a string, it returns the 400
    validation response, having called nothing at all. *)
Theorem C2_missing_organism_is_400 :
  forall (API_KEY : option string) (env : Env) (items : list (string * pyval)),
    organism_missing items ->
    Forall (fun ev => is_outbound ev = false)
           (snd (fetch_rnaseq_data API_KEY env (Body (PDict items))))
    /\ (absent_or_str "tissue" items -> absent_or_str "data_type" items ->
        fetch_rnaseq_data API_KEY env (Body (PDict items))
        = (Responded resp_missing_organism, [])).
Proof.
  intros API_KEY env items Hmiss. split.
  - unfold fetch_rnaseq_data, try_body. unfold bind at 1.
    destruct (read_query_missing [] Hmiss) as [-> | (t & d & ->)]; cbn.
    + repeat constructor.
    + constructor.
  - intros Ht Hd.
    unfold fetch_rnaseq_data, try_body. unfold bind at 1.
    destruct (read_query_missing_typed [] Hmiss Ht Hd) as (t & d & ->).
    reflexivity.
Qed.

(** C2 holds at the empty object: no organism, nothing else. *)
Lemma C2_missing_organism_is_400_witness :
  organism_missing []
  /\ fetch_rnaseq_data None (scripted two_ids (always xml_with_link) false "n")
                       (Body (PDict []))
     = (Responded resp_missing_organism, []).
Proof.
  assert (Hm : organism_missing []) by (left; reflexivity).
  split; [exact Hm|].
  apply (C2_missing_organism_is_400 None
           (scripted two_ids (always xml_with_link) false "n") Hm);
    left; reflexivity.
Defined.

(** C2 as first stated fails: with no organism and a tissue that is not
    a string, the answer is the 500 unexpected-error response. *)
Lemma C2_counterexample_tissue_not_a_string :
  organism_missing [("tissue", PInt 5)]
  /\ fetch_rnaseq_data None (scripted two_ids (always xml_with_link) false "n")
                       (Body (PDict [("tissue", PInt 5)]))
     = (Responded resp_unexpected, [EvLogError "Unexpected error: " TypeError])
  /\ resp_unexpected <> resp_missing_organism.
Proof.
  split; [left; reflexivity|]. split; [reflexivity | discriminate].
Qed.

(** C10.  A request that carries no JSON object (no parseable body, or
    a decoded value that is not an object) gets the 500 unexpected-error
    response, not the 400 validation response, and nothing is called. *)
Theorem C10_no_json_object_is_500 :
  forall (API_KEY : option string) (env : Env) (req : request),
    not_json_object req ->
    fst (fetch_rnaseq_data API_KEY env req) = Responded resp_unexpected
    /\ fst (fetch_rnaseq_data API_KEY env req) <> Responded resp_missing_organism
    /\ exists e, snd (fetch_rnaseq_data API_KEY env req)
                 = [EvLogError "Unexpected error: " e].
Proof.
  intros API_KEY env req Hreq.
  destruct req as [|data].
  - split; [reflexivity|]. split; [discriminate | eexists; reflexivity].
  - destruct data; try contradiction;
      (split; [reflexivity|]; split; [discriminate | eexists; reflexivity]).
Qed.

(** C10 holds for a body that is a JSON array. *)
Lemma C10_no_json_object_is_500_witness :
  not_json_object (Body (PList [PStr "mouse"]))
  /\ fst (fetch_rnaseq_data None (scripted two_ids (always xml_with_link) false "n")
                            (Body (PList [PStr "mouse"])))
     = Responded resp_unexpected.
Proof.
  split; [exact I|].
  apply (C10_no_json_object_is_500 None
           (scripted two_ids (always xml_with_link) false "n")
           (Body (PList [PStr "mouse"])) I).
Defined.

(* ================================================================= *)
(** ** From the destination to the response *)

Section Finish.

Variable env : Env.

Lemma finish_shape (details : list string) (h : trace) :
  exists b evs l,
    snd (conclude (save_studies env details h))
    = h ++ EvPathExists base_dir b :: evs ++ l
    /\ Forall (fun ev => is_log_error ev = true) l
    /\ ((b = false /\ Forall (fun ev => after_prompt_event ev = true) evs)
        \/ (b = true /\
            exists a evs',
              evs = EvInput (prompt_text base_dir) a :: evs'
              /\ Forall (fun ev => after_prompt_event ev = true) evs'
              /\ forall ans, a = Ok ans -> lower ans = "n" ->
                   evs' = [] /\ l = [] /\
                   fst (conclude (save_studies env details h))
                   = Responded resp_cancelled)).
Proof.
  destruct (save_studies_shape env details h) as (b & evs & Heq & Hcases).
  destruct (save_studies env details h) as [r h'] eqn:Hrun.
  cbn [fst snd] in Heq, Hcases. subst h'.
  exists b, evs.
  destruct r as [resp|e].
  - exists []. cbn [conclude fst snd]. rewrite app_nil_r.
    split; [reflexivity|]. split; [constructor|].
    destruct Hcases as [Hf | (Hb & a & evs' & He & Hall & Hn)]; [now left|].
    right. split; [exact Hb|]. exists a, evs'.
    split; [exact He|]. split; [exact Hall|].
    intros ans Ha Hl. destruct (Hn ans Ha Hl) as (H1 & H2).
    injection H2 as ->. auto.
  - cbn [conclude].
    assert (Hl : exists l, except_clauses e (h ++ EvPathExists base_dir b :: evs)
                           = (fst (except_clauses e (h ++ EvPathExists base_dir b :: evs)),
                              (h ++ EvPathExists base_dir b :: evs) ++ l)
                           /\ Forall (fun ev => is_log_error ev = true) l).
    { destruct e; cbn;
        first [ exists []; rewrite app_nil_r; split; [reflexivity | constructor]
              | eexists [_]; split; [reflexivity | repeat constructor] ]. }
    destruct Hl as (l & Hex & Hlog).
    exists l. rewrite Hex. cbn [fst snd].
    split; [now rewrite <- app_assoc|]. split; [exact Hlog|].
    destruct Hcases as [Hf | (Hb & a & evs' & He & Hall & Hn)]; [now left|].
    right. split; [exact Hb|]. exists a, evs'.
    split; [exact He|]. split; [exact Hall|].
    intros ans Ha Hlow. destruct (Hn ans Ha Hlow) as (_ & H2). discriminate H2.
Qed.

Lemma finish_tail (details : list string) (h : trace) :
  exists tl,
    snd (conclude (save_studies env details h)) = h ++ tl
    /\ Forall (fun ev => tail_event ev = true) tl.
Proof.
  destruct (finish_shape details h) as (b & evs & l & Heq & Hlog & Hcases).
  exists (EvPathExists base_dir b :: evs ++ l). split; [exact Heq|].
  assert (Hap : forall l', Forall (fun ev => after_prompt_event ev = true) l' ->
                           Forall (fun ev => tail_event ev = true) l').
  { intros l'. apply Forall_impl. intros ev Hev.
    unfold tail_event. now rewrite Hev. }
  constructor; [reflexivity|].
  apply Forall_app. split.
  - destruct Hcases as [(_ & Hall) | (_ & a & evs' & -> & Hall & _)].
    + now apply Hap.
    + constructor; [reflexivity | now apply Hap].
  - eapply Forall_impl; [|exact Hlog].
    intros ev Hev. destruct ev; try discriminate. reflexivity.
Qed.

End Finish.

Lemma tail_event_not_http (ev : event) :
  tail_event ev = true -> is_http ev = false.
Proof. destruct ev; try reflexivity. discriminate. Qed.


(* ================================================================= *)
(** ** Search, detail fetches, cancellation *)

Ltac by_paths API_KEY env req :=
  let HR := fresh "HR" in
  let run := fresh "run" in
  let Hrun := fresh "Hrun" in
  pose proof (fetch_rnaseq_data_Run API_KEY env req) as HR;
  remember (fetch_rnaseq_data API_KEY env req) as run eqn:Hrun;
  clear Hrun;
  destruct HR as [ e He
                 |
                 | q out e Hd
                 | q out v Hd Hv
                 | q out v e Hd Hv Hi
                 | q out v oks i rest fout e Hd Hv Hi Hg He
                 | q out v oks Hd Hv Hi Hg ].

(** The trace of a request that got past the search starts with the
    search call. *)
Lemma except_clauses_head (e : exn) (ev : event) (h : trace) :
  exists tl, snd (except_clauses e (ev :: h)) = ev :: tl.
Proof.
  destruct (except_clauses_trace e (ev :: h)) as [-> | (m & ->)];
    eexists; reflexivity.
Qed.

Lemma finish_head (env : Env) (details : list string) (ev : event) (h : trace) :
  exists tl, snd (conclude (save_studies env details (ev :: h))) = ev :: tl.
Proof.
  destruct (finish_tail env details (ev :: h)) as (tl & -> & _).
  eexists; reflexivity.
Qed.

(** C3.  When the search call succeeds and yields the empty identifier
    list, the handler returns the 404 no-data response; the search call
    is the only event of the request, so there is no detail fetch, no
    FTP traffic and no change on disk. *)
Theorem C3_empty_id_list_is_404 :
  forall (API_KEY : option string) (env : Env) (req : request),
    search_yield (snd (fetch_rnaseq_data API_KEY env req)) = Some (PList []) ->
    fst (fetch_rnaseq_data API_KEY env req) = Responded resp_no_data
    /\ length (snd (fetch_rnaseq_data API_KEY env req)) = 1
    /\ Forall (fun ev => is_detail_fetch ev = false /\ harmless ev = true)
              (snd (fetch_rnaseq_data API_KEY env req)).
Proof.
  intros API_KEY env req Hy.
  by_paths API_KEY env req.
  - discriminate Hy.
  - discriminate Hy.
  - destruct (except_clauses_head e (search_event API_KEY q out) []) as (tl & Htl).
    rewrite Htl in Hy. apply search_yield_decode in Hy. congruence.
  - cbn [fst snd length]. split; [reflexivity|]. split; [reflexivity|].
    constructor; [|constructor]. split; reflexivity.
  - destruct (except_clauses_head e (search_event API_KEY q out) []) as (tl & Htl).
    rewrite Htl in Hy. apply search_yield_decode in Hy.
    assert (v = PList []) by congruence. subst v. discriminate Hv.
  - destruct (except_clauses_head e (search_event API_KEY q out)
                (map (ok_event API_KEY) oks ++ [detail_event API_KEY i fout]))
      as (tl & Htl).
    rewrite Htl in Hy. apply search_yield_decode in Hy.
    assert (v = PList []) by congruence. subst v. discriminate Hv.
  - destruct (finish_head env (map (fun p => text (snd p)) oks)
                (search_event API_KEY q out) (map (ok_event API_KEY) oks))
      as (tl & Htl).
    rewrite Htl in Hy. apply search_yield_decode in Hy.
    assert (v = PList []) by congruence. subst v. discriminate Hv.
Qed.

(** C3 holds in a world whose search finds nothing. *)
Lemma C3_empty_id_list_is_404_witness :
  search_yield
    (snd (fetch_rnaseq_data None (scripted [] (always xml_with_link) false "n")
                            req_mouse))
  = Some (PList [])
  /\ fst (fetch_rnaseq_data None (scripted [] (always xml_with_link) false "n")
                            req_mouse)
     = Responded resp_no_data.
Proof.
  assert (Hy : search_yield
                 (snd (fetch_rnaseq_data None
                         (scripted [] (always xml_with_link) false "n") req_mouse))
               = Some (PList [])) by reflexivity.
  split; [exact Hy|].
  apply (C3_empty_id_list_is_404 None
           (scripted [] (always xml_with_link) false "n") req_mouse Hy).
Defined.




(** C6.  When the base directory exists and the operator answers n (in
    either case), the handler returns 200 with the cancellation
    message; the prompt is the last event of the request; and no event
    of the request is FTP traffic or a change on disk: nothing is
    deleted, created or downloaded. *)
Theorem C6_cancel_changes_nothing :
  forall (API_KEY : option string) (env : Env) (req : request)
         (prompt ans : string),
    In (EvPathExists base_dir true) (snd (fetch_rnaseq_data API_KEY env req)) ->
    In (EvInput prompt (Ok ans)) (snd (fetch_rnaseq_data API_KEY env req)) ->
    lower ans = "n" ->
    fst (fetch_rnaseq_data API_KEY env req) = Responded resp_cancelled
    /\ (exists pre,
           snd (fetch_rnaseq_data API_KEY env req)
           = pre ++ [EvPathExists base_dir true; EvInput prompt (Ok ans)])
    /\ Forall (fun ev => harmless ev = true)
              (snd (fetch_rnaseq_data API_KEY env req)).
Proof.
  intros API_KEY env req prompt ans _ Hin Hn.
  by_paths API_KEY env req.
  - destruct Hin as [H | []]; discriminate H.
  - destruct Hin.
  - exfalso.
    destruct (except_clauses_trace e [search_event API_KEY q out]) as [H | (m & H)];
      rewrite H in Hin; cbn [app] in Hin.
    + destruct Hin as [H1 | []]; discriminate H1.
    + destruct Hin as [H1 | [H1 | []]]; discriminate H1.
  - exfalso. destruct Hin as [H1 | []]; discriminate H1.
  - exfalso.
    destruct (except_clauses_trace e [search_event API_KEY q out]) as [H | (m & H)];
      rewrite H in Hin; cbn [app] in Hin.
    + destruct Hin as [H1 | []]; discriminate H1.
    + destruct Hin as [H1 | [H1 | []]]; discriminate H1.
  - exfalso.
    set (h := search_event API_KEY q out
                :: map (ok_event API_KEY) oks ++ [detail_event API_KEY i fout]) in *.
    assert (Hh : In (EvInput prompt (Ok ans)) h).
    { destruct (except_clauses_trace e h) as [H | (m & H)]; rewrite H in Hin;
        [exact Hin|].
      apply in_app_or in Hin. destruct Hin as [Hin | [H1 | []]];
        [exact Hin | discriminate H1]. }
    destruct Hh as [H1 | Hh]; [discriminate H1|].
    apply in_app_or in Hh. destruct Hh as [Hh | [H1 | []]]; [|discriminate H1].
    apply ok_events_http in Hh. discriminate Hh.
  - set (h := search_event API_KEY q out :: map (ok_event API_KEY) oks) in *.
    destruct (finish_shape env (map (fun p => text (snd p)) oks) h)
      as (b & evs & l & Heq & Hlog & Hcases).
    rewrite Heq in Hin |- *.
    assert (Hnot_h : ~ In (EvInput prompt (Ok ans)) h).
    { intros [H1 | Hh]; [discriminate H1|].
      apply ok_events_http in Hh. discriminate Hh. }
    assert (Hnot_after :
              forall l', Forall (fun ev => after_prompt_event ev = true) l' ->
                         ~ In (EvInput prompt (Ok ans)) l').
    { intros l' Hall Hl'. rewrite Forall_forall in Hall.
      apply Hall in Hl'. discriminate Hl'. }
    assert (Hnot_l : ~ In (EvInput prompt (Ok ans)) l).
    { intro Hl. rewrite Forall_forall in Hlog. apply Hlog in Hl. discriminate Hl. }
    apply in_app_or in Hin. destruct Hin as [Hin | [H1 | Hin]];
      [contradiction | discriminate H1 |].
    apply in_app_or in Hin. destruct Hin as [Hin | Hin]; [|contradiction].
    destruct Hcases as [(_ & Hall) | (-> & a & evs' & -> & Hall & Hcancel)].
    + exfalso. exact (Hnot_after _ Hall Hin).
    + destruct Hin as [H1 | Hin]; [|exfalso; exact (Hnot_after _ Hall Hin)].
      injection H1 as <- ->.
      destruct (Hcancel ans eq_refl Hn) as (-> & -> & Hfst).
      split; [exact Hfst|]. split.
      * exists h. reflexivity.
      * unfold h. cbn [app]. constructor; [reflexivity|].
        apply Forall_app. split; [apply ok_events_harmless | repeat constructor].
Qed.

(** C6 holds in a world where the directory exists and the operator
    types a capital N. *)
Lemma C6_cancel_changes_nothing_witness :
  In (EvPathExists base_dir true)
     (snd (fetch_rnaseq_data None (scripted two_ids (always xml_with_link) true "N")
                             req_mouse))
  /\ In (EvInput (prompt_text base_dir) (Ok "N"))
        (snd (fetch_rnaseq_data None (scripted two_ids (always xml_with_link) true "N")
                                req_mouse))
  /\ lower "N" = "n"
  /\ fst (fetch_rnaseq_data None (scripted two_ids (always xml_with_link) true "N")
                            req_mouse)
     = Responded resp_cancelled.
Proof.
  assert (H1 : In (EvPathExists base_dir true)
                  (snd (fetch_rnaseq_data None
                          (scripted two_ids (always xml_with_link) true "N") req_mouse)))
    by (do 3 right; left; reflexivity).
  assert (H2 : In (EvInput (prompt_text base_dir) (Ok "N"))
                  (snd (fetch_rnaseq_data None
                          (scripted two_ids (always xml_with_link) true "N") req_mouse)))
    by (do 4 right; left; reflexivity).
  assert (H3 : lower "N" = "n") by reflexivity.
  split; [exact H1|]. split; [exact H2|]. split; [exact H3|].
  apply (C6_cancel_changes_nothing None
           (scripted two_ids (always xml_with_link) true "N") req_mouse
           (prompt_text base_dir) "N" H1 H2 H3).
Defined.

(* ================================================================= *)
(** ** The base directory *)







(* ================================================================= *)
(** ** The search term *)

Lemma fetch_details_extends (API_KEY : option string) (env : Env)
      (ids : list pyval) (acc : list string) (h : trace) :
  exists evs, snd (fetch_details API_KEY env ids acc h) = h ++ evs.
Proof.
  destruct (fetch_details_cases API_KEY env ids acc h)
    as [(oks & _ & _ & ->) | (oks & i & rest & fout & e & _ & _ & _ & ->)];
    eexists; reflexivity.
Qed.

(** A request that passes validation starts with the search call for
    the query built from its three fields. *)
Lemma fetch_rnaseq_data_head (API_KEY : option string) (env : Env)
      (req : request) (o t d : string) :
  read_query req [] = (Ok (o, t, d), []) ->
  is_empty o = false ->
  exists out tl,
    snd (fetch_rnaseq_data API_KEY env req)
    = search_event API_KEY (build_query o t d) out :: tl.
Proof.
  intros Hq Ho.
  unfold fetch_rnaseq_data, try_body. unfold bind at 1. rewrite Hq, Ho.
  unfold bind at 1. rewrite search_eq. cbv zeta. cbn [app].
  set (q := build_query o t d).
  set (out := env_http_get env [] NCBI_BASE_URL (search_params API_KEY q) 10).
  exists out.
  destruct (decode_search out) as [v|e]; [|apply except_clauses_head].
  destruct (truthy v); cbn [negb]; [|eexists; reflexivity].
  unfold bind at 1. unfold lift at 1.
  destruct (py_iter v) as [ids|e]; [|apply except_clauses_head].
  unfold bind at 1.
  destruct (fetch_details_cases API_KEY env ids [] [search_event API_KEY q out])
    as [(oks & _ & _ & ->) | (oks & i & rest & fout & e & _ & _ & _ & ->)].
  - cbn [app]. apply (finish_head env).
  - cbn [app]. apply except_clauses_head.
Qed.

(** C7, on the code.  For the body with organism mouse and nothing
    else, the term sent to the search endpoint is
    mouse hippocampus rnaseq, in every world and for every API key: the
    default data type goes through the sanitizer, which deletes its
    hyphen.  It is not the term mouse hippocampus rna-seq.  When the
    search returns the identifiers 100001 and 100002 and their fetches
    succeed, exactly those two detail fetches are issued, in that
    order. *)
Theorem C7_default_data_type_loses_hyphen :
  (forall (API_KEY : option string) (env : Env),
      search_term (snd (fetch_rnaseq_data API_KEY env req_mouse))
      = Some (PStr "mouse hippocampus rnaseq"))
  /\ PStr "mouse hippocampus rnaseq" <> PStr "mouse hippocampus rna-seq"
  /\ issued_ids
       (snd (fetch_rnaseq_data None
               (scripted two_ids (always xml_with_link) true "n") req_mouse))
     = [PStr "100001"; PStr "100002"].
Proof.
  split; [|split; [discriminate | reflexivity]].
  intros API_KEY env.
  destruct (fetch_rnaseq_data_head API_KEY env req_mouse
              (o := "mouse") (t := "hippocampus") (d := "rnaseq")
              eq_refl eq_refl) as (out & tl & ->).
  reflexivity.
Qed.

(* ================================================================= *)
(** ** Strings: prefixes, searching, replacing *)

Lemma strip_prefix_Some (p s r : string) :
  strip_prefix p s = Some r -> s = (p ++ r)%string.
Proof.
  revert s. induction p as [|a p IH]; intros s H.
  - cbn in H. now injection H as <-.
  - destruct s as [|b s]; [discriminate H|].
    cbn in H. destruct (Ascii.eqb a b) eqn:Hab; [|discriminate H].
    apply Ascii.eqb_eq in Hab. subst b. cbn. f_equal. now apply IH.
Qed.

Lemma strip_prefix_app (p r : string) :
  strip_prefix p (p ++ r) = Some r.
Proof.
  induction p as [|a p IH]; [reflexivity|].
  cbn. now rewrite Ascii.eqb_refl.
Qed.

Lemma take_while_split (f : ascii -> bool) (s : string) :
  exists post, s = (take_while f s ++ post)%string.
Proof.
  induction s as [|a s (post & IH)]; [exists EmptyString; reflexivity|].
  cbn. destruct (f a).
  - exists post. cbn. now rewrite <- IH.
  - exists (String a s). reflexivity.
Qed.

Lemma take_while_all (f : ascii -> bool) (s : string) (c : ascii) :
  In c (chars (take_while f s)) -> f c = true.
Proof.
  induction s as [|a s IH]; [intros []|].
  cbn. destruct (f a) eqn:Hfa; [|intros []].
  intros [<- | Hin]; [exact Hfa | now apply IH].
Qed.

Lemma not_dquote_spec (c : ascii) : not_dquote c = true <-> c <> dquote.
Proof.
  unfold not_dquote. rewrite negb_true_iff.
  split.
  - intros H ->. now rewrite Ascii.eqb_refl in H.
  - intro H. destruct (Ascii.eqb c dquote) eqn:E; [|reflexivity].
    apply Ascii.eqb_eq in E. contradiction.
Qed.

(** What [re.search] returns is a match, and it occurs in the text. *)
Lemma re_search_ftp_sound (s u : string) :
  re_search_ftp s = Some u ->
  matches_ftp_pattern u /\ exists pre post, s = (pre ++ u ++ post)%string.
Proof.
  induction s as [|a s IH]; [discriminate|].
  intro H. cbn [re_search_ftp] in H.
  assert (Hrec : re_search_ftp s = Some u ->
                 matches_ftp_pattern u /\
                 exists pre post, String a s = (pre ++ u ++ post)%string).
  { intro Hs. destruct (IH Hs) as (Hm & pre & post & ->).
    split; [exact Hm|]. exists (String a pre), post. reflexivity. }
  destruct (strip_prefix "ftp://" (String a s)) as [rest|] eqn:Hp; [|auto].
  destruct (take_while not_dquote rest) as [|c m] eqn:Htw; [auto|].
  injection H as <-.
  apply strip_prefix_Some in Hp.
  destruct (take_while_split not_dquote rest) as (post & Hrest).
  split.
  - exists (String c m). split; [reflexivity|]. split; [discriminate|].
    intros x Hx. apply not_dquote_spec.
    apply (take_while_all not_dquote rest). now rewrite Htw.
  - exists EmptyString, post. rewrite Hp, Hrest at 1. rewrite Htw.
    cbn [append]. reflexivity.
Qed.

(** When [re.search] returns [None] the text has no match. *)
Lemma re_search_ftp_complete (s : string) :
  re_search_ftp s = None -> ~ has_ftp_match s.
Proof.
  intros Hnone (pre & t & post & Hs & m & -> & Hne & Hq).
  revert s Hnone Hs. induction pre as [|a pre IH]; intros s Hnone Hs.
  - subst s.
    destruct m as [|c m]; [contradiction|].
    assert (Hc : not_dquote c = true)
      by (apply not_dquote_spec, Hq; now left).
    change ((EmptyString ++ ("ftp://" ++ String c m) ++ post)%string)
      with (String "f" ("tp://" ++ (String c m ++ post))%string) in Hnone.
    cbn [re_search_ftp] in Hnone.
    change (String "f" ("tp://" ++ (String c m ++ post))%string)
      with (("ftp://" ++ (String c (m ++ post)))%string) in Hnone.
    rewrite strip_prefix_app in Hnone.
    cbn [take_while] in Hnone.
    rewrite Hc in Hnone. discriminate Hnone.
  - subst s.
    change (re_search_ftp (String a (pre ++ ("ftp://" ++ m) ++ post)) = None)
      in Hnone.
    cbn [re_search_ftp] in Hnone.
    apply (IH (pre ++ ("ftp://" ++ m) ++ post)%string); [|reflexivity].
    destruct (strip_prefix "ftp://" _) as [rest|]; [|exact Hnone].
    destruct (take_while not_dquote rest); [exact Hnone | discriminate Hnone].
Qed.

Lemma re_search_ftp_None_iff (s : string) :
  re_search_ftp s = None <-> ~ has_ftp_match s.
Proof.
  split; [apply re_search_ftp_complete|].
  intro Hno. destruct (re_search_ftp s) as [u|] eqn:Hs; [|reflexivity].
  exfalso. apply Hno.
  destruct (re_search_ftp_sound s Hs) as (Hm & pre & post & ->).
  now exists pre, u, post.
Qed.

(** C5.  A record whose detail blob has no substring matching the
    ftp:// pattern is skipped silently: the loop body returns normally
    and emits nothing for it (no log line, no FTP connection, no
    directory, no file), so the loop goes on with the next record and
    the next ordinal as if from the same history. *)
Theorem C5_no_link_is_skipped :
  forall (env : Env) (dir : string) (idx : nat) (study : string) (h : trace),
    ~ has_ftp_match study ->
    download_study env dir idx study h = (Ok tt, h)
    /\ forall rest,
        download_all env dir idx (study :: rest) h
        = download_all env dir (S idx) rest h.
Proof.
  intros env dir idx study h Hno.
  apply re_search_ftp_None_iff in Hno.
  assert (Hskip : download_study env dir idx study h = (Ok tt, h)).
  { unfold download_study. rewrite Hno. reflexivity. }
  split; [exact Hskip|].
  intro rest. cbn [download_all]. unfold bind at 1. now rewrite Hskip.
Qed.

(** C5 holds for a record with no link. *)
Lemma C5_no_link_is_skipped_witness :
  ~ has_ftp_match xml_without_link
  /\ download_study (scripted two_ids (always xml_without_link) false "n")
                    base_dir 1 xml_without_link []
     = (Ok tt, []).
Proof.
  assert (Hno : ~ has_ftp_match xml_without_link)
    by (apply re_search_ftp_None_iff; reflexivity).
  split; [exact Hno|].
  apply (C5_no_link_is_skipped
           (scripted two_ids (always xml_without_link) false "n")
           base_dir 1 [] Hno).
Defined.

(* ================================================================= *)
(** ** The remote directory *)

Lemma replace_from_absent (old new s : string) :
  contains old s = false -> replace_from old new 0 s = s.
Proof.
  induction s as [|a s IH]; [reflexivity|].
  intro H. cbn [contains] in H. apply orb_false_iff in H. destruct H as (Hst & Hrest).
  cbn [replace_from]. rewrite Hst. f_equal. now apply IH.
Qed.

Lemma replace_from_skip (old new p s : string) :
  replace_from old new (String.length p) (p ++ s) = replace_from old new 0 s.
Proof.
  induction p as [|a p IH]; [reflexivity|].
  cbn [String.length append replace_from]. exact IH.
Qed.

Lemma startswith_app (p s : string) : startswith (p ++ s) p = true.
Proof. unfold startswith. now rewrite strip_prefix_app. Qed.

Lemma replace_from_at_match (old new : string) (a : ascii) (s : string) :
  startswith (String a s) old = true ->
  replace_from old new 0 (String a s)
  = (new ++ replace_from old new (String.length old - 1) s)%string.
Proof. intro H. cbn [replace_from]. now rewrite H. Qed.

(** An occurrence at the very start is replaced and the scan resumes
    after it. *)
Lemma replace_from_prefix (a : ascii) (old' new s : string) :
  replace_from (String a old') new 0 (String a old' ++ s)
  = (new ++ replace_from (String a old') new 0 s)%string.
Proof.
  pose proof (startswith_app (String a old') s) as Hst.
  cbn [append] in Hst |- *.
  rewrite (@replace_from_at_match _ new _ _ Hst).
  cbn [String.length]. rewrite Nat.sub_succ, Nat.sub_0_r.
  now rewrite replace_from_skip.
Qed.

Lemma remote_dir_on_host (path : string) :
  remote_dir (ftp_host_prefix ++ path) = remote_dir path.
Proof.
  exact (replace_from_prefix "f" "tp://ftp.ncbi.nlm.nih.gov/" EmptyString path).
Qed.

Section Cwd.

Variable env : Env.

Lemma download_files_no_cwd (target study_dir : string) (files : list string) :
  emits (cwd_to target) (download_files env study_dir files).
Proof.
  induction files as [|file rest IH]; cbn [download_files].
  - apply emits_ret.
  - unfold open_wb, ftp_retrbinary, log_info.
    apply emits_bind; [apply emits_perform; intros; reflexivity | intros].
    apply emits_bind;
      [apply emits_finally; [apply emits_perform; intros|]; reflexivity | intros].
    apply emits_bind; [apply emits_emit; reflexivity | intros]. exact IH.
Qed.

Lemma download_study_cwd (dir : string) (idx : nat) (study url : string) :
  re_search_ftp study = Some url ->
  emits (cwd_to (remote_dir url)) (download_study env dir idx study).
Proof.
  intro Hs. unfold download_study. rewrite Hs.
  unfold log_info, ftp_connect, ftp_login, ftp_cwd, ftp_nlst, makedirs, ftp_quit.
  apply emits_bind; [apply emits_emit; reflexivity | intros].
  apply emits_bind; [apply emits_perform; intros; reflexivity | intros].
  apply emits_bind; [apply emits_perform; intros; reflexivity | intros].
  apply emits_bind;
    [apply emits_perform; intros; cbn [cwd_to]; apply String.eqb_refl | intros].
  apply emits_bind; [apply emits_perform; intros; reflexivity | intros].
  apply emits_bind; [apply emits_perform; intros; reflexivity | intros].
  apply emits_bind; [apply download_files_no_cwd | intros].
  apply emits_perform; intros; reflexivity.
Qed.

End Cwd.

(** C9, as amended.  For the transfer location extracted from a record,
    every remote directory the retriever changes to is the URL with the
    literal ftp://ftp.ncbi.nlm.nih.gov/ removed wherever it occurs.  So
    for a URL on that host whose path does not contain the literal
    again it is the path; and a URL in which the literal does not occur
    (any URL naming another host) is passed to the server unchanged. *)
Theorem C9_remote_dir_strips_the_ncbi_prefix :
  forall (env : Env) (dir : string) (idx : nat) (study url : string) (h : trace),
    re_search_ftp study = Some url ->
    exists evs,
      snd (download_study env dir idx study h) = h ++ evs
      /\ forall d out,
          In (EvFtpCwd d out) evs ->
          d = remote_dir url
          /\ (forall path,
                 url = (ftp_host_prefix ++ path)%string ->
                 contains ftp_host_prefix path = false -> d = path)
          /\ (contains ftp_host_prefix url = false -> d = url).
Proof.
  intros env dir idx study url h Hs.
  destruct (download_study_cwd env dir idx study Hs h) as (evs & Heq & Hall).
  exists evs. split; [exact Heq|].
  intros d out Hin.
  rewrite Forall_forall in Hall. apply Hall in Hin.
  cbn [cwd_to] in Hin. apply String.eqb_eq in Hin. subst d.
  split; [reflexivity|]. split.
  - intros path -> Hpath. rewrite remote_dir_on_host.
    now apply replace_from_absent.
  - intro Hurl. now apply replace_from_absent.
Qed.

(** C9 holds for a record that links to the NCBI server: the retriever
    changes to the path of the link. *)
Lemma C9_remote_dir_strips_the_ncbi_prefix_witness :
  re_search_ftp xml_with_link
  = Some "ftp://ftp.ncbi.nlm.nih.gov/geo/series/GSE1nnn/GSE1234/"
  /\ In (EvFtpCwd "geo/series/GSE1nnn/GSE1234/" (Ok tt))
        (snd (download_study (scripted two_ids (always xml_with_link) false "n")
                             base_dir 1 xml_with_link []))
  /\ forall d out,
      In (EvFtpCwd d out)
         (snd (download_study (scripted two_ids (always xml_with_link) false "n")
                              base_dir 1 xml_with_link [])) ->
      d = "geo/series/GSE1nnn/GSE1234/".
Proof.
  assert (Hs : re_search_ftp xml_with_link
               = Some "ftp://ftp.ncbi.nlm.nih.gov/geo/series/GSE1nnn/GSE1234/")
    by reflexivity.
  split; [exact Hs|].
  split; [do 3 right; left; reflexivity|].
  destruct (C9_remote_dir_strips_the_ncbi_prefix
              (scripted two_ids (always xml_with_link) false "n")
              base_dir 1 xml_with_link [] Hs) as (evs & Heq & Hall).
  intros d out Hin. rewrite Heq in Hin. cbn [app] in Hin.
  destruct (Hall d out Hin) as (_ & Hpath & _).
  apply Hpath; reflexivity.
Defined.

(** C9 as first stated fails: for a link that names another host the
    retriever still connects to ftp.ncbi.nlm.nih.gov and changes to the
    whole URL, host prefix included, not to the path pub/geo/. *)
Lemma C9_counterexample_other_host :
  re_search_ftp xml_other_host = Some "ftp://ftp.example.org/pub/geo/"
  /\ remote_dir "ftp://ftp.example.org/pub/geo/" = "ftp://ftp.example.org/pub/geo/"
  /\ remote_dir "ftp://ftp.example.org/pub/geo/" <> "pub/geo/"
  /\ In (EvFtpCwd "ftp://ftp.example.org/pub/geo/" (Ok tt))
        (snd (download_study (scripted two_ids (always xml_other_host) false "n")
                             base_dir 1 xml_other_host []))
  /\ In (EvFtpConnect "ftp.ncbi.nlm.nih.gov" (Ok tt))
        (snd (download_study (scripted two_ids (always xml_other_host) false "n")
                             base_dir 1 xml_other_host [])).
Proof.
  split; [reflexivity|]. split; [reflexivity|]. split; [discriminate|].
  split.
  - do 3 right; left; reflexivity.
  - right; left; reflexivity.
Qed.

(* ================================================================= *)
(** * Further properties *)

(** ** The nine ways to the destination *)

Lemma download_into_extends (env : Env) (dir : string) (details : list string)
      (h : trace) :
  exists r dl, download_into env dir details h = (r, h ++ dl).
Proof.
  destruct (download_into_emits env dir details h) as (dl & Heq & _).
  destruct (download_into env dir details h) as [r h'].
  cbn [snd] in Heq. subst h'. now exists r, dl.
Qed.

Lemma save_studies_Saved (env : Env) (details : list string) (h : trace) :
  exists r tl,
    save_studies env details h = (r, h ++ tl) /\ Saved env details r tl.
Proof.
  rewrite save_studies_eq. cbv zeta.
  destruct (env_path_exists env h base_dir).
  - set (h1 := h ++ [EvPathExists base_dir true]).
    destruct (env_input env h1 (prompt_text base_dir)) as [a|e].
    + set (h2 := h1 ++ [EvInput (prompt_text base_dir) (Ok a)]).
      unfold after_answer.
      destruct (String.eqb (lower a) "s") eqn:Hs.
      * unfold bind at 1. unfold rmtree at 1, perform.
        destruct (env_rmtree env h2 base_dir) as [[]|e].
        -- unfold bind at 1. unfold makedirs at 1, perform.
           set (h3 := h2 ++ [EvRmtree base_dir (Ok tt)]).
           destruct (env_makedirs env h3 base_dir false) as [[]|e].
           ++ destruct (download_into_extends env base_dir details
                          (h3 ++ [EvMakedirs base_dir false (Ok tt)]))
                as (r & dl & Hdl).
              exists r, ([EvPathExists base_dir true; prompt_event (Ok a);
                          EvRmtree base_dir (Ok tt);
                          EvMakedirs base_dir false (Ok tt)] ++ dl).
              split.
              ** rewrite Hdl. unfold h3, h2, h1, prompt_event.
                 rewrite <- !app_assoc. reflexivity.
              ** apply Saved_overwritten; [exact Hs|]. eexists; exact Hdl.
           ++ exists (Raise e). eexists. split.
              ** unfold h3, h2, h1. rewrite <- !app_assoc. reflexivity.
              ** now apply Saved_recreate_failed.
        -- exists (Raise e). eexists. split.
           ++ unfold h2, h1. rewrite <- !app_assoc. reflexivity.
           ++ now apply Saved_rmtree_failed.
      * destruct (String.eqb (lower a) "n") eqn:Hn.
        -- exists (Ok resp_cancelled). eexists. split.
           ++ unfold ret, h2, h1. rewrite <- !app_assoc. reflexivity.
           ++ now apply Saved_cancelled.
        -- unfold bind at 1. unfold makedirs at 1, perform.
           destruct (env_makedirs env h2 (path_join "/home/caheri_salas" a) true)
             as [[]|e].
           ++ destruct (download_into_extends env
                          (path_join "/home/caheri_salas" a) details
                          (h2 ++ [EvMakedirs (path_join "/home/caheri_salas" a)
                                             true (Ok tt)]))
                as (r & dl & Hdl).
              exists r, ([EvPathExists base_dir true; prompt_event (Ok a);
                          EvMakedirs (path_join "/home/caheri_salas" a) true (Ok tt)]
                           ++ dl).
              split.
              ** rewrite Hdl. unfold h2, h1, prompt_event.
                 rewrite <- !app_assoc. reflexivity.
              ** apply Saved_redirected; [exact Hs | exact Hn|]. eexists; exact Hdl.
           ++ exists (Raise e). eexists. split.
              ** unfold h2, h1. rewrite <- !app_assoc. reflexivity.
              ** now apply Saved_redirect_failed.
    + exists (Raise e). eexists. split.
      * unfold h1. rewrite <- !app_assoc. reflexivity.
      * apply Saved_no_answer.
  - set (h1 := h ++ [EvPathExists base_dir false]).
    unfold bind at 1. unfold makedirs at 1, perform.
    destruct (env_makedirs env h1 base_dir false) as [[]|e].
    + destruct (download_into_extends env base_dir details
                  (h1 ++ [EvMakedirs base_dir false (Ok tt)]))
        as (r & dl & Hdl).
      exists r, ([EvPathExists base_dir false; EvMakedirs base_dir false (Ok tt)]
                   ++ dl).
      split.
      * rewrite Hdl. unfold h1. rewrite <- !app_assoc. reflexivity.
      * apply Saved_fresh. eexists; exact Hdl.
    + exists (Raise e). eexists. split.
      * unfold h1. rewrite <- !app_assoc. reflexivity.
      * apply Saved_fresh_failed.
Qed.

(* ================================================================= *)
(** ** Stopping at the first failure *)

Lemma quiet_app (l1 l2 : trace) : quiet l1 -> quiet l2 -> quiet (l1 ++ l2).
Proof. intros H1 H2. apply Forall_app. now split. Qed.

Section FailFast.

Context {A B : Type}.

Lemma ff_ret (a : A) : fail_fast (ret a).
Proof. intro h. exists []. cbn. rewrite app_nil_r. split; [reflexivity | constructor]. Qed.

Lemma ff_raise (e : exn) : fail_fast (@raise A e).
Proof.
  intro h. exists []. cbn. rewrite app_nil_r.
  split; [reflexivity | left; constructor].
Qed.

Lemma ff_lift (r : result A) : fail_fast (lift r).
Proof.
  intro h. exists []. cbn. rewrite app_nil_r. split; [reflexivity|].
  destruct r; [constructor | left; constructor].
Qed.

Lemma ff_bind (m : M A) (k : A -> M B) :
  fail_fast m -> (forall a, fail_fast (k a)) -> fail_fast (bind m k).
Proof.
  intros Hm Hk h. unfold bind.
  destruct (Hm h) as (evs & Heq & Hff).
  destruct (m h) as [[a|e] h']; cbn [fst snd] in Heq, Hff; subst h'.
  - destruct (Hk a (h ++ evs)) as (evs' & Heq' & Hff').
    exists (evs ++ evs'). rewrite Heq', app_assoc. split; [reflexivity|].
    destruct (fst (k a (h ++ evs))) as [b|e].
    + now apply quiet_app.
    + destruct Hff' as [Hq | (pre & ev & closes & -> & Hpre & Hev & Hcl)].
      * left. now apply quiet_app.
      * right. exists (evs ++ pre), ev, closes.
        rewrite <- app_assoc. repeat split; try assumption.
        now apply quiet_app.
  - exists evs. split; [reflexivity | exact Hff].
Qed.

Lemma ff_perform (oracle : trace -> result A) (ev : result A -> event) :
  (forall out, raised (ev out)
               = match out with Raise e => Some e | Ok _ => None end) ->
  fail_fast (perform oracle ev).
Proof.
  intros Hev h. exists [ev (oracle h)]. split; [reflexivity|].
  unfold perform. cbn [fst]. pose proof (Hev (oracle h)) as H.
  destruct (oracle h) as [a|e].
  - constructor; [exact H | constructor].
  - right. exists [], (ev (Raise e)), []. repeat split; try constructor. exact H.
Qed.

Lemma ff_finally (m : M A) (ev : event) :
  fail_fast m -> is_close ev = true -> fail_fast (finally m ev).
Proof.
  intros Hm Hev h. unfold finally.
  destruct (Hm h) as (evs & Heq & Hff).
  destruct (m h) as [r h']; cbn [fst snd] in Heq, Hff |- *; subst h'.
  exists (evs ++ [ev]). rewrite app_assoc. split; [reflexivity|].
  assert (Hq : quiet [ev]).
  { constructor; [|constructor]. destruct ev; try discriminate. reflexivity. }
  destruct r as [a|e].
  - now apply quiet_app.
  - destruct Hff as [Hquiet | (pre & ev' & closes & -> & Hpre & Hev' & Hcl)].
    + left. now apply quiet_app.
    + right. exists pre, ev', (closes ++ [ev]).
      rewrite <- app_assoc. repeat split; try assumption.
      apply Forall_app. split; [exact Hcl | now constructor].
Qed.

End FailFast.

Lemma ff_emit (ev : event) : raised ev = None -> fail_fast (emit ev).
Proof.
  intros Hev h. exists [ev]. split; [reflexivity|].
  constructor; [exact Hev | constructor].
Qed.

Section FailFastHandler.

Variable API_KEY : option string.
Variable env : Env.

Ltac ff_call := apply ff_perform; intros []; reflexivity.

Ltac ff_step :=
  first [ apply ff_ret | apply ff_raise | apply ff_lift
        | ff_call
        | apply ff_emit; reflexivity
        | apply ff_finally; [|reflexivity]
        | apply ff_bind; [|intros] ].

Lemma ff_path_exists (p : string) : fail_fast (path_exists env p).
Proof.
  intro h. eexists [_]. split; [reflexivity|]. repeat constructor.
Qed.

Lemma ff_sanitize_value (v : pyval) : fail_fast (sanitize_value v).
Proof. destruct v; first [apply ff_ret | apply ff_raise]. Qed.

Lemma ff_raise_for_status (r : http_response) : fail_fast (raise_for_status r).
Proof. unfold raise_for_status. destruct (error_status r); ff_step. Qed.

Lemma ff_read_query (req : request) : fail_fast (read_query req).
Proof.
  unfold read_query.
  apply ff_bind; [destruct req; ff_step | intros].
  repeat first [ apply ff_sanitize_value | ff_step ].
Qed.

Lemma ff_search (q : string) : fail_fast (search API_KEY env q).
Proof.
  unfold search, requests_get.
  repeat first [ apply ff_raise_for_status | ff_step ].
Qed.

Lemma ff_fetch_details (ids : list pyval) :
  forall acc, fail_fast (fetch_details API_KEY env ids acc).
Proof.
  induction ids as [|i ids IH]; intro acc; cbn [fetch_details].
  - apply ff_ret.
  - unfold requests_get.
    apply ff_bind; [ff_call | intros].
    apply ff_bind; [apply ff_raise_for_status | intros]. apply IH.
Qed.

Lemma ff_download_files (study_dir : string) (files : list string) :
  fail_fast (download_files env study_dir files).
Proof.
  induction files as [|file rest IH]; cbn [download_files].
  - apply ff_ret.
  - unfold open_wb, ftp_retrbinary, log_info.
    repeat ff_step. exact IH.
Qed.

Lemma ff_download_study (dir : string) (idx : nat) (study : string) :
  fail_fast (download_study env dir idx study).
Proof.
  unfold download_study.
  destruct (re_search_ftp study); [|apply ff_ret].
  unfold log_info, ftp_connect, ftp_login, ftp_cwd, ftp_nlst, makedirs, ftp_quit.
  repeat first [ apply ff_download_files | ff_step ].
Qed.

Lemma ff_download_all (dir : string) (details : list string) :
  forall idx, fail_fast (download_all env dir idx details).
Proof.
  induction details as [|study rest IH]; intro idx; cbn [download_all].
  - apply ff_ret.
  - apply ff_bind; [apply ff_download_study | intros; apply IH].
Qed.

Lemma ff_resolve_destination : fail_fast (resolve_destination env).
Proof.
  unfold resolve_destination, input, rmtree, makedirs.
  apply ff_bind; [apply ff_path_exists | intros [|]].
  - apply ff_bind; [ff_call | intros ui].
    destruct (String.eqb (lower ui) "s"); [repeat ff_step|].
    destruct (String.eqb (lower ui) "n"); repeat ff_step.
  - repeat ff_step.
Qed.

Lemma ff_save_studies (details : list string) :
  fail_fast (save_studies env details).
Proof.
  unfold save_studies, download_into.
  apply ff_bind; [apply ff_resolve_destination | intros [dir|]].
  - apply ff_bind; [apply ff_download_all | intros; apply ff_ret].
  - apply ff_ret.
Qed.

Lemma ff_try_body (req : request) : fail_fast (try_body API_KEY env req).
Proof.
  unfold try_body.
  apply ff_bind; [apply ff_read_query | intros [[o t] d]].
  destruct (is_empty o); [apply ff_ret|].
  apply ff_bind; [apply ff_search | intros v].
  destruct (negb (truthy v)); [apply ff_ret|].
  apply ff_bind; [apply ff_lift | intros ids].
  apply ff_bind; [apply ff_fetch_details | intros; apply ff_save_studies].
Qed.

End FailFastHandler.

Lemma fetch_rnaseq_data_conclude (API_KEY : option string) (env : Env)
      (req : request) :
  fetch_rnaseq_data API_KEY env req = conclude (try_body API_KEY env req []).
Proof. reflexivity. Qed.

Lemma except_clauses_split (e : exn) (h : trace) :
  exists logs,
    except_clauses e h = (fst (except_clauses e []), h ++ logs)
    /\ Forall (fun ev => is_log_error ev = true) logs
    /\ (logs = [] -> e = BaseExceptionOnly).
Proof.
  destruct e; cbn;
    first [ exists []; rewrite app_nil_r;
            split; [reflexivity | split; [constructor | reflexivity]]
          | eexists [_]; split; [reflexivity|];
            split; [repeat constructor | discriminate] ].
Qed.

Lemma except_clauses_status (e : exn) (h : trace) (r : response) :
  fst (except_clauses e h) = Responded r -> status r = 500.
Proof. destruct e; cbn; intros [= <-]; reflexivity. Qed.

Lemma quiet_not_raised (evs : trace) (ev : event) (e : exn) :
  quiet evs -> In ev evs -> raised ev = Some e -> False.
Proof.
  intros Hq Hin Hev. unfold quiet in Hq. rewrite Forall_forall in Hq.
  apply Hq in Hin. congruence.
Qed.

Lemma closes_quiet (closes : trace) :
  Forall (fun c => is_close c = true) closes -> quiet closes.
Proof.
  apply Forall_impl. intros ev Hev. destruct ev; try discriminate. reflexivity.
Qed.

Lemma logs_quiet (logs : trace) :
  Forall (fun ev => is_log_error ev = true) logs -> quiet logs.
Proof.
  apply Forall_impl. intros ev Hev. destruct ev; try discriminate. reflexivity.
Qed.

(** X1.  The first call that raises ends the request: every call before
    it returned normally, after it come only the closing of an open
    file and the log line of the [except] clause, and the outcome is
    the one the [except] clauses give for the exception it raised. *)
Theorem first_raise_ends_the_request :
  forall (API_KEY : option string) (env : Env) (req : request)
         (ev : event) (e : exn),
    In ev (snd (fetch_rnaseq_data API_KEY env req)) ->
    raised ev = Some e ->
    fst (fetch_rnaseq_data API_KEY env req) = fst (except_clauses e [])
    /\ exists pre closes logs,
        snd (fetch_rnaseq_data API_KEY env req) = pre ++ ev :: closes ++ logs
        /\ quiet pre
        /\ Forall (fun c => is_close c = true) closes
        /\ Forall (fun l => is_log_error l = true) logs.
Proof.
  intros API_KEY env req ev e Hin Hev.
  rewrite fetch_rnaseq_data_conclude in *.
  destruct (ff_try_body API_KEY env req []) as (evs & Heq & Hff).
  destruct (try_body API_KEY env req []) as [r h'].
  cbn [fst snd app] in Heq, Hff. subst h'.
  destruct r as [resp|e']; cbn [conclude] in *.
  - exfalso. eapply quiet_not_raised; eassumption.
  - destruct (except_clauses_split e' evs) as (logs & Hex & Hlogs & _).
    rewrite Hex in *. cbn [fst snd] in *.
    assert (Hnl : ~ In ev logs)
      by (intro H; eapply quiet_not_raised; [apply logs_quiet| |]; eassumption).
    apply in_app_or in Hin. destruct Hin as [Hin | Hin]; [|contradiction].
    destruct Hff as [Hq | (pre & ev' & closes & -> & Hpre & Hev' & Hcl)].
    + exfalso. eapply quiet_not_raised; eassumption.
    + apply in_app_or in Hin. destruct Hin as [Hin | [<- | Hin]].
      * exfalso. eapply quiet_not_raised; eassumption.
      * assert (e' = e) by congruence. subst e'.
        split; [reflexivity|].
        exists pre, closes, logs. rewrite <- app_assoc. cbn [app]. auto.
      * exfalso. eapply quiet_not_raised; [apply closes_quiet| |]; eassumption.
Qed.

(** X1 holds in a world whose disk refuses every new directory. *)
Lemma first_raise_ends_the_request_witness :
  In (EvMakedirs base_dir false (Raise OSError))
     (snd (fetch_rnaseq_data None
             (makedirs_raises OSError
                (scripted two_ids (always xml_with_link) false "n"))
             req_mouse))
  /\ fst (fetch_rnaseq_data None
            (makedirs_raises OSError
               (scripted two_ids (always xml_with_link) false "n"))
            req_mouse)
     = Responded resp_ftp_failure.
Proof.
  assert (Hin : In (EvMakedirs base_dir false (Raise OSError))
                   (snd (fetch_rnaseq_data None
                           (makedirs_raises OSError
                              (scripted two_ids (always xml_with_link) false "n"))
                           req_mouse)))
    by (do 4 right; left; reflexivity).
  split; [exact Hin|].
  apply (first_raise_ends_the_request None
           (makedirs_raises OSError
              (scripted two_ids (always xml_with_link) false "n"))
           req_mouse _ Hin eq_refl).
Defined.

(** X2.  Whichever call raises an [OSError], an [EOFError] or an
    [ftplib] error (an FTP call, but also [os.makedirs],
    [shutil.rmtree], [open] or the prompt), the request is answered
    with the 500 response that blames the FTP connection. *)
Theorem local_failures_blame_ftp :
  forall (API_KEY : option string) (env : Env) (req : request)
         (ev : event) (e : exn),
    In ev (snd (fetch_rnaseq_data API_KEY env req)) ->
    raised ev = Some e ->
    e = OSError \/ e = EOFError \/ e = FtpError ->
    fst (fetch_rnaseq_data API_KEY env req) = Responded resp_ftp_failure.
Proof.
  intros API_KEY env req ev e Hin Hev He.
  destruct (ff_try_body API_KEY env req []) as (evs & Heq & Hff).
  rewrite fetch_rnaseq_data_conclude in *.
  destruct (try_body API_KEY env req []) as [r h'].
  cbn [fst snd app] in Heq, Hff. subst h'.
  destruct r as [resp|e']; cbn [conclude] in *.
  - exfalso. eapply quiet_not_raised; eassumption.
  - destruct (except_clauses_split e' evs) as (logs & Hex & Hlogs & _).
    rewrite Hex in *. cbn [fst snd] in *.
    apply in_app_or in Hin. destruct Hin as [Hin | Hin];
      [|exfalso; eapply quiet_not_raised; [apply logs_quiet| |]; eassumption].
    destruct Hff as [Hq | (pre & ev' & closes & -> & Hpre & Hev' & Hcl)];
      [exfalso; eapply quiet_not_raised; eassumption|].
    apply in_app_or in Hin. destruct Hin as [Hin | [<- | Hin]].
    + exfalso. eapply quiet_not_raised; eassumption.
    + assert (e' = e) by congruence. subst e'.
      destruct He as [-> | [-> | ->]]; reflexivity.
    + exfalso. eapply quiet_not_raised; [apply closes_quiet| |]; eassumption.
Qed.

(** X2 holds when the base directory cannot be created: no FTP server
    was contacted, yet the response blames the FTP connection. *)
Lemma local_failures_blame_ftp_witness :
  In (EvMakedirs base_dir false (Raise OSError))
     (snd (fetch_rnaseq_data None
             (makedirs_raises OSError
                (scripted two_ids (always xml_with_link) false "n"))
             req_mouse))
  /\ Forall (fun ev => is_ftp ev = false)
            (snd (fetch_rnaseq_data None
                    (makedirs_raises OSError
                       (scripted two_ids (always xml_with_link) false "n"))
                    req_mouse))
  /\ fst (fetch_rnaseq_data None
            (makedirs_raises OSError
               (scripted two_ids (always xml_with_link) false "n"))
            req_mouse)
     = Responded resp_ftp_failure.
Proof.
  assert (Hin : In (EvMakedirs base_dir false (Raise OSError))
                   (snd (fetch_rnaseq_data None
                           (makedirs_raises OSError
                              (scripted two_ids (always xml_with_link) false "n"))
                           req_mouse)))
    by (do 4 right; left; reflexivity).
  split; [exact Hin|]. split; [repeat constructor|].
  apply (local_failures_blame_ftp None
           (makedirs_raises OSError
              (scripted two_ids (always xml_with_link) false "n"))
           req_mouse _ Hin eq_refl).
  now left.
Defined.

(* ================================================================= *)
(** ** What a success means; the order of the detail fetches *)

Lemma issued_ids_no_http (l : trace) :
  Forall (fun ev => is_http ev = false) l -> issued_ids l = [].
Proof.
  induction 1 as [|ev l Hev _ IH]; [reflexivity|].
  destruct ev; try discriminate; exact IH.
Qed.

Lemma issued_ids_search (API_KEY : option string) (q : string)
      (out : result http_response) (l : trace) :
  issued_ids (search_event API_KEY q out :: l) = issued_ids l.
Proof.
  unfold search_event. cbn [issued_ids].
  now rewrite base_url_is_not_fetch_url.
Qed.

Lemma decode_search_Ok (out : result http_response) (v : pyval) :
  decode_search out = Ok v ->
  exists r, out = Ok r /\ error_status r = false.
Proof.
  destruct out as [r|e]; [|discriminate]. cbn.
  destruct (error_status r) eqn:Hst; [discriminate|]. intros _. now exists r.
Qed.

Lemma identifiers_search (API_KEY : option string) (q : string)
      (out : result http_response) (l : trace) (v : pyval) :
  decode_search out = Ok v ->
  identifiers (search_event API_KEY q out :: l)
  = match py_iter v with Ok ids => Some ids | Raise _ => None end.
Proof.
  intro Hd. unfold identifiers.
  now rewrite (proj2 (search_yield_decode API_KEY q out l v) Hd).
Qed.

Lemma identifiers_search_failed (API_KEY : option string) (q : string)
      (out : result http_response) (l : trace) (e : exn) :
  decode_search out = Raise e ->
  identifiers (search_event API_KEY q out :: l) = None.
Proof.
  intro Hd. unfold identifiers.
  destruct (search_yield (search_event API_KEY q out :: l)) as [v|] eqn:Hy;
    [|reflexivity].
  apply search_yield_decode in Hy. congruence.
Qed.

Lemma ok_events_went_well (API_KEY : option string)
      (oks : list (pyval * http_response)) :
  Forall good oks ->
  Forall (fun ev => went_wrong ev = false) (map (ok_event API_KEY) oks).
Proof.
  intro Hg. apply Forall_forall. intros ev Hin.
  apply in_map_iff in Hin. destruct Hin as (p & <- & Hp).
  rewrite Forall_forall in Hg. exact (Hg p Hp).
Qed.

Lemma save_studies_run (env : Env) (details : list string) (h : trace) :
  exists r tl,
    save_studies env details h = (r, h ++ tl)
    /\ Saved env details r tl
    /\ Forall (fun ev => is_http ev = false) tl
    /\ match r with Ok _ => quiet tl | Raise _ => True end.
Proof.
  destruct (save_studies_Saved env details h) as (r & tl & Hs & HS).
  exists r, tl. split; [exact Hs|]. split; [exact HS|]. split.
  - destruct (save_studies_shape env details h) as (b & evs & Heq & Hc).
    rewrite Hs in Heq. cbn [snd] in Heq. apply app_inv_head in Heq. subst tl.
    assert (Hap : forall l, Forall (fun ev => after_prompt_event ev = true) l ->
                            Forall (fun ev => is_http ev = false) l).
    { intro l. apply Forall_impl. intros ev Hev. destruct ev; try reflexivity.
      discriminate Hev. }
    constructor; [reflexivity|].
    destruct Hc as [(_ & Hall) | (_ & a & evs' & -> & Hall & _)].
    + now apply Hap.
    + constructor; [reflexivity | now apply Hap].
  - destruct (ff_save_studies env details h) as (evs & Heq & Hff).
    rewrite Hs in Heq, Hff. cbn [fst snd] in Heq, Hff.
    apply app_inv_head in Heq. subst evs.
    destruct r; [exact Hff | exact I].
Qed.

(** X3.  The success response is given only when nothing went wrong: no
    call of the request raised, no HTTP call came back with an error
    status, and one detail fetch was issued for each identifier the
    search returned, in the order of the search result. *)
Theorem success_means_nothing_went_wrong :
  forall (API_KEY : option string) (env : Env) (req : request),
    fst (fetch_rnaseq_data API_KEY env req) = Responded resp_success ->
    Forall (fun ev => went_wrong ev = false)
           (snd (fetch_rnaseq_data API_KEY env req))
    /\ exists ids,
        identifiers (snd (fetch_rnaseq_data API_KEY env req)) = Some ids
        /\ issued_ids (snd (fetch_rnaseq_data API_KEY env req)) = ids.
Proof.
  intros API_KEY env req Hok.
  by_paths API_KEY env req.
  - discriminate Hok.
  - discriminate Hok.
  - apply except_clauses_status in Hok. discriminate Hok.
  - discriminate Hok.
  - apply except_clauses_status in Hok. discriminate Hok.
  - apply except_clauses_status in Hok. discriminate Hok.
  - set (h := search_event API_KEY q out :: map (ok_event API_KEY) oks) in *.
    destruct (save_studies_run env (map (fun p => text (snd p)) oks) h)
      as (r & tl & Hs & _ & Hhttp & Hq).
    rewrite Hs in *. destruct r as [resp|e]; cbn [conclude fst snd] in *;
      [|apply except_clauses_status in Hok; discriminate Hok].
    destruct (decode_search_Ok _ Hd) as (r0 & -> & Hst).
    split.
    + apply Forall_app. split.
      * constructor; [exact Hst | now apply ok_events_went_well].
      * unfold quiet in Hq. rewrite Forall_forall in Hq, Hhttp |- *.
        intros ev Hin. unfold went_wrong. rewrite (Hq ev Hin).
        specialize (Hhttp ev Hin). destruct ev; try reflexivity. discriminate Hhttp.
    + exists (map fst oks). split.
      * unfold h. cbn [app]. rewrite (@identifiers_search API_KEY q _ _ _ Hd), Hi.
        reflexivity.
      * rewrite issued_ids_app. unfold h.
        rewrite issued_ids_search, issued_ids_ok_events,
          (issued_ids_no_http Hhttp).
        apply app_nil_r.
Qed.

(** X3 holds in a world where everything works and the directory is
    new. *)
Lemma success_means_nothing_went_wrong_witness :
  fst (fetch_rnaseq_data None (scripted two_ids (always xml_with_link) false "n")
                         req_mouse)
  = Responded resp_success
  /\ Forall (fun ev => went_wrong ev = false)
            (snd (fetch_rnaseq_data None
                    (scripted two_ids (always xml_with_link) false "n") req_mouse)).
Proof.
  assert (Hok : fst (fetch_rnaseq_data None
                       (scripted two_ids (always xml_with_link) false "n")
                       req_mouse)
                = Responded resp_success) by reflexivity.
  split; [exact Hok|].
  apply (success_means_nothing_went_wrong None
           (scripted two_ids (always xml_with_link) false "n") req_mouse Hok).
Defined.

(** X4.  In every request, the detail fetches are issued for an initial
    segment of the identifiers the search returned, one fetch per
    identifier, in the order of the search result: no identifier is
    skipped, repeated or reordered. *)
Theorem detail_fetches_follow_the_identifiers :
  forall (API_KEY : option string) (env : Env) (req : request)
         (ids : list pyval),
    identifiers (snd (fetch_rnaseq_data API_KEY env req)) = Some ids ->
    exists n,
      n <= length ids
      /\ issued_ids (snd (fetch_rnaseq_data API_KEY env req)) = firstn n ids.
Proof.
  intros API_KEY env req ids Hids.
  by_paths API_KEY env req.
  - discriminate Hids.
  - discriminate Hids.
  - exfalso.
    destruct (except_clauses_head e (search_event API_KEY q out) []) as (tl & Htl).
    rewrite Htl in Hids. rewrite (@identifiers_search_failed API_KEY q _ _ _ Hd) in Hids.
    discriminate Hids.
  - exists 0. split; [lia|]. cbn [snd]. now rewrite issued_ids_search.
  - exfalso.
    destruct (except_clauses_head e (search_event API_KEY q out) []) as (tl & Htl).
    rewrite Htl in Hids. rewrite (@identifiers_search API_KEY q _ _ _ Hd), Hi in Hids.
    discriminate Hids.
  - set (h := search_event API_KEY q out
                :: map (ok_event API_KEY) oks ++ [detail_event API_KEY i fout]) in *.
    destruct (except_clauses_split e h) as (logs & Hex & Hlogs & _).
    rewrite Hex in *. cbn [snd] in *.
    unfold h in Hids. cbn [app] in Hids.
    rewrite (@identifiers_search API_KEY q _ _ _ Hd), Hi in Hids. injection Hids as <-.
    exists (S (length (map fst oks))). split.
    + rewrite length_app. cbn [length]. lia.
    + rewrite firstn_middle, issued_ids_app. unfold h.
      rewrite issued_ids_search, issued_ids_app, issued_ids_ok_events.
      rewrite (issued_ids_no_http (l := logs)).
      * rewrite app_nil_r. unfold detail_event. cbn [issued_ids].
        rewrite String.eqb_refl. reflexivity.
      * eapply Forall_impl; [|exact Hlogs].
        intros ev Hev. destruct ev; try discriminate. reflexivity.
  - set (h := search_event API_KEY q out :: map (ok_event API_KEY) oks) in *.
    destruct (finish_tail env (map (fun p => text (snd p)) oks) h)
      as (tl & Htl & Hall).
    rewrite Htl in *.
    unfold h in Hids. cbn [app] in Hids.
    rewrite (@identifiers_search API_KEY q _ _ _ Hd), Hi in Hids. injection Hids as <-.
    exists (length (map fst oks)). split; [lia|].
    rewrite firstn_all, issued_ids_app. unfold h.
    rewrite issued_ids_search, issued_ids_ok_events.
    rewrite (issued_ids_no_http (l := tl)); [apply app_nil_r|].
    eapply Forall_impl; [|exact Hall].
    intros ev Hev. now apply tail_event_not_http.
Qed.

(** X4 holds in the world whose second detail fetch fails: two of the
    three identifiers were fetched. *)
Lemma detail_fetches_follow_the_identifiers_witness :
  identifiers
    (snd (fetch_rnaseq_data None (scripted three_ids second_fails false "n")
                            req_mouse))
  = Some three_ids
  /\ exists n,
      n <= length three_ids
      /\ issued_ids
           (snd (fetch_rnaseq_data None (scripted three_ids second_fails false "n")
                                   req_mouse))
         = firstn n three_ids.
Proof.
  assert (Hids : identifiers
                   (snd (fetch_rnaseq_data None
                           (scripted three_ids second_fails false "n") req_mouse))
                 = Some three_ids) by reflexivity.
  split; [exact Hids|].
  apply (detail_fetches_follow_the_identifiers None
           (scripted three_ids second_fails false "n") req_mouse Hids).
Defined.

(* ================================================================= *)
(** ** The HTTP calls of a request *)

Lemma run_http_events (API_KEY : option string) (env : Env) (req : request)
      (ev : event) :
  In ev (snd (fetch_rnaseq_data API_KEY env req)) ->
  is_http ev = true ->
  (exists q out, ev = search_event API_KEY q out)
  \/ (exists i out, ev = detail_event API_KEY i out).
Proof.
  intros Hin Hhttp.
  assert (Hlogs : forall logs, Forall (fun l => is_log_error l = true) logs ->
                               ~ In ev logs).
  { intros logs Hl Hi. rewrite Forall_forall in Hl. apply Hl in Hi.
    destruct ev; discriminate. }
  assert (Hoks : forall oks, In ev (map (ok_event API_KEY) oks) ->
                             exists i out, ev = detail_event API_KEY i out).
  { intros oks Hi. apply in_map_iff in Hi. destruct Hi as (p & <- & _).
    eexists _, _. reflexivity. }
  by_paths API_KEY env req.
  - destruct Hin as [<- | []]. discriminate Hhttp.
  - destruct Hin.
  - destruct (except_clauses_split e [search_event API_KEY q out])
      as (logs & Hex & Hl & _).
    rewrite Hex in Hin. cbn [snd app] in Hin.
    destruct Hin as [<- | Hin]; [left; eauto | now apply Hlogs in Hin].
  - destruct Hin as [<- | []]. left; eauto.
  - destruct (except_clauses_split e [search_event API_KEY q out])
      as (logs & Hex & Hl & _).
    rewrite Hex in Hin. cbn [snd app] in Hin.
    destruct Hin as [<- | Hin]; [left; eauto | now apply Hlogs in Hin].
  - destruct (except_clauses_split e
                (search_event API_KEY q out
                   :: map (ok_event API_KEY) oks ++ [detail_event API_KEY i fout]))
      as (logs & Hex & Hl & _).
    rewrite Hex in Hin. cbn [snd] in Hin.
    apply in_app_or in Hin. destruct Hin as [[<- | Hin] | Hin];
      [left; eauto | | now apply Hlogs in Hin].
    apply in_app_or in Hin. destruct Hin as [Hin | [<- | []]];
      [right; now apply Hoks in Hin | right; eauto].
  - destruct (finish_tail env (map (fun p => text (snd p)) oks)
                (search_event API_KEY q out :: map (ok_event API_KEY) oks))
      as (tl & Htl & Hall).
    rewrite Htl in Hin. apply in_app_or in Hin.
    destruct Hin as [[<- | Hin] | Hin];
      [left; eauto | right; now apply Hoks in Hin |].
    rewrite Forall_forall in Hall. apply Hall in Hin.
    apply tail_event_not_http in Hin. congruence.
Qed.

(** X5.  Every HTTP call of a request goes to one of the two NCBI
    endpoints with a timeout of 10, the database gds and the configured
    API key (None when the environment has none): a search call asks
    for JSON and carries the term, a detail call asks for XML and
    carries the identifier. *)
Theorem http_calls_are_keyed_ncbi_queries :
  forall (API_KEY : option string) (env : Env) (req : request)
         (url : string) (params : list (string * pyval)) (t : nat)
         (fo : result http_response),
    In (EvHttpGet url params t fo) (snd (fetch_rnaseq_data API_KEY env req)) ->
    t = 10
    /\ assoc "db" params = Some (PStr "gds")
    /\ assoc "api_key" params = Some (api_key_value API_KEY)
    /\ ((url = NCBI_BASE_URL
         /\ assoc "retmode" params = Some (PStr "json")
         /\ exists q, assoc "term" params = Some (PStr q))
        \/ (url = NCBI_FETCH_URL
            /\ assoc "retmode" params = Some (PStr "xml")
            /\ exists i, assoc "id" params = Some i)).
Proof.
  intros API_KEY env req url params t fo Hin.
  destruct (run_http_events API_KEY env req _ Hin eq_refl)
    as [(q & out & H) | (i & out & H)].
  - unfold search_event in H. injection H as -> -> -> _.
    repeat split; try reflexivity. left. repeat split; try reflexivity.
    eexists; reflexivity.
  - unfold detail_event in H. injection H as -> -> -> _.
    repeat split; try reflexivity. right. repeat split; try reflexivity.
    eexists; reflexivity.
Qed.

(** X5 holds for the second detail call of the sample world. *)
Lemma http_calls_are_keyed_ncbi_queries_witness :
  In (EvHttpGet NCBI_FETCH_URL (fetch_params (Some "KEY") (PStr "100002")) 10
                (always xml_with_link (Some (PStr "100002"))))
     (snd (fetch_rnaseq_data (Some "KEY")
             (scripted two_ids (always xml_with_link) true "n") req_mouse))
  /\ assoc "api_key" (fetch_params (Some "KEY") (PStr "100002"))
     = Some (PStr "KEY").
Proof.
  assert (Hin : In (EvHttpGet NCBI_FETCH_URL
                              (fetch_params (Some "KEY") (PStr "100002")) 10
                              (always xml_with_link (Some (PStr "100002"))))
                   (snd (fetch_rnaseq_data (Some "KEY")
                           (scripted two_ids (always xml_with_link) true "n")
                           req_mouse)))
    by (do 2 right; left; reflexivity).
  split; [exact Hin|].
  apply (http_calls_are_keyed_ncbi_queries (Some "KEY")
           (scripted two_ids (always xml_with_link) true "n") req_mouse _ _ _ _ Hin).
Defined.

(** X6.  A request calls the search endpoint at most once, and before
    anything else: no event after the first one is a search call. *)
Theorem search_is_called_first_and_once :
  forall (API_KEY : option string) (env : Env) (req : request),
    Forall (fun ev => is_search ev = false)
           (tl (snd (fetch_rnaseq_data API_KEY env req))).
Proof.
  intros API_KEY env req.
  assert (Hlogs : forall logs, Forall (fun l => is_log_error l = true) logs ->
                               Forall (fun ev => is_search ev = false) logs).
  { intro logs. apply Forall_impl. intros ev Hev. destruct ev; try discriminate.
    reflexivity. }
  assert (Hoks : forall oks, Forall (fun ev => is_search ev = false)
                                    (map (ok_event API_KEY) oks)).
  { intro oks. apply Forall_forall. intros ev Hi.
    apply in_map_iff in Hi. destruct Hi as (p & <- & _). reflexivity. }
  by_paths API_KEY env req.
  - constructor.
  - constructor.
  - destruct (except_clauses_split e [search_event API_KEY q out])
      as (logs & -> & Hl & _).
    cbn [snd app tl]. now apply Hlogs.
  - constructor.
  - destruct (except_clauses_split e [search_event API_KEY q out])
      as (logs & -> & Hl & _).
    cbn [snd app tl]. now apply Hlogs.
  - destruct (except_clauses_split e
                (search_event API_KEY q out
                   :: map (ok_event API_KEY) oks ++ [detail_event API_KEY i fout]))
      as (logs & -> & Hl & _).
    cbn [snd app tl]. apply Forall_app. split; [|now apply Hlogs].
    apply Forall_app. split; [apply Hoks | repeat constructor].
  - destruct (finish_tail env (map (fun p => text (snd p)) oks)
                (search_event API_KEY q out :: map (ok_event API_KEY) oks))
      as (tl0 & -> & Hall).
    cbn [app tl]. apply Forall_app. split; [apply Hoks|].
    eapply Forall_impl; [|exact Hall].
    intros ev Hev. apply tail_event_not_http in Hev.
    destruct ev; try reflexivity. discriminate Hev.
Qed.

(* ================================================================= *)
(** ** More on the sanitizer, and the search term *)

Lemma sanitize_input_allowed (s : string) :
  Forall allowed_char (chars (sanitize_input s)).
Proof.
  rewrite sanitize_input_filter. apply Forall_forall. intros c Hc.
  apply filter_In in Hc. now apply allowedb_spec.
Qed.

(** X7.  Sanitizing commutes with concatenation, and never makes a
    string longer. *)
Theorem sanitize_input_app :
  forall a b : string,
    sanitize_input (a ++ b) = (sanitize_input a ++ sanitize_input b)%string
    /\ String.length (sanitize_input a) <= String.length a.
Proof.
  intros a b. split.
  - induction a as [|x a IH]; [reflexivity|].
    cbn [append]. rewrite !sanitize_input_cons.
    destruct (allowedb x); cbn [append]; now rewrite IH.
  - induction a as [|x a IH]; [cbn; lia|].
    rewrite sanitize_input_cons.
    destruct (allowedb x); cbn [String.length]; lia.
Qed.

(** X8.  The strings the sanitizer leaves unchanged are exactly those
    made of ASCII letters, digits, underscores and spaces only. *)
Theorem sanitize_input_fixed_points :
  forall s : string,
    sanitize_input s = s <-> Forall allowed_char (chars s).
Proof.
  intro s. split.
  - intro H. rewrite <- H. apply sanitize_input_allowed.
  - intro H. induction s as [|x s IH]; [reflexivity|].
    rewrite sanitize_input_cons.
    unfold chars in H; cbn in H. inversion H as [|? ? Hx Hs]; subst.
    apply allowedb_spec in Hx. rewrite Hx. f_equal. now apply IH.
Qed.






(* ================================================================= *)
(** ** The extracted transfer location *)

Lemma take_while_split_max (f : ascii -> bool) (s : string) :
  exists post,
    s = (take_while f s ++ post)%string
    /\ (post = EmptyString
        \/ exists c post', post = String c post' /\ f c = false).
Proof.
  induction s as [|a s (post & IH & Hpost)].
  - exists EmptyString. split; [reflexivity | now left].
  - cbn [take_while]. destruct (f a) eqn:Hfa.
    + exists post. split; [cbn; now rewrite <- IH | exact Hpost].
    + exists (String a s). split; [reflexivity|]. right. now exists a, s.
Qed.

Lemma string_append_assoc (a b c : string) :
  ((a ++ b) ++ c)%string = (a ++ (b ++ c))%string.
Proof. induction a as [|x a IH]; [reflexivity|]. cbn. now rewrite IH. Qed.

(** A match that starts the text is found at once. *)
Lemma match_at_head (t post : string) :
  matches_ftp_pattern t ->
  exists rest c m,
    strip_prefix "ftp://" (t ++ post) = Some rest
    /\ take_while not_dquote rest = String c m.
Proof.
  intros (m & -> & Hne & Hq).
  destruct m as [|c m]; [contradiction|].
  exists (String c m ++ post)%string.
  rewrite string_append_assoc, strip_prefix_app.
  cbn [append take_while].
  assert (Hc : not_dquote c = true) by (apply not_dquote_spec, Hq; now left).
  rewrite Hc. eexists _, _. split; reflexivity.
Qed.

(** X10.  What the extractor returns is the leftmost match of the
    pattern in the text, taken as long as possible: it is ftp://
    followed by one or more characters none of which is a double quote,
    it is followed in the text by a double quote or by nothing, and no
    match of the pattern starts before it. *)
Theorem re_search_ftp_leftmost_longest :
  forall s u : string,
    re_search_ftp s = Some u ->
    matches_ftp_pattern u
    /\ exists pre post,
        s = (pre ++ u ++ post)%string
        /\ (post = EmptyString \/ exists post', post = String dquote post')
        /\ forall pre1 t post1,
            s = (pre1 ++ t ++ post1)%string ->
            matches_ftp_pattern t ->
            String.length pre <= String.length pre1.
Proof.
  induction s as [|a s IH]; intros u H; [discriminate H|].
  cbn [re_search_ftp] in H.
  assert (Hrec : re_search_ftp s = Some u ->
                 (forall rest c m,
                     strip_prefix "ftp://" (String a s) = Some rest ->
                     take_while not_dquote rest = String c m -> False) ->
                 matches_ftp_pattern u
                 /\ exists pre post,
                     String a s = (pre ++ u ++ post)%string
                     /\ (post = EmptyString \/ exists post', post = String dquote post')
                     /\ forall pre1 t post1,
                         String a s = (pre1 ++ t ++ post1)%string ->
                         matches_ftp_pattern t ->
                         String.length pre <= String.length pre1).
  { intros Hs Hhead.
    destruct (IH u Hs) as (Hm & pre & post & Heq & Hpost & Hleft).
    split; [exact Hm|]. exists (String a pre), post.
    split; [cbn [append]; now rewrite <- Heq|]. split; [exact Hpost|].
    intros pre1 t post1 Heq1 Ht.
    destruct pre1 as [|a1 pre1].
    - exfalso. cbn [append] in Heq1.
      destruct (match_at_head post1 Ht) as (rest & c & m & Hp & Htw).
      rewrite <- Heq1 in Hp. exact (Hhead rest c m Hp Htw).
    - cbn [append] in Heq1. injection Heq1 as _ Heq1.
      cbn [String.length]. apply le_n_S. exact (Hleft pre1 t post1 Heq1 Ht). }
  destruct (strip_prefix "ftp://" (String a s)) as [rest|] eqn:Hp;
    [|apply Hrec; [exact H | discriminate]].
  destruct (take_while not_dquote rest) as [|c m] eqn:Htw;
    [apply Hrec; [exact H | intros ? ? ? [= <-]; congruence]|].
  injection H as <-.
  apply strip_prefix_Some in Hp.
  destruct (take_while_split_max not_dquote rest) as (post & Hrest & Hpost).
  rewrite Htw in Hrest.
  split.
  - exists (String c m). split; [reflexivity|]. split; [discriminate|].
    intros x Hx. apply not_dquote_spec.
    apply (take_while_all not_dquote rest). now rewrite Htw.
  - exists EmptyString, post. split; [|split].
    + rewrite Hp, Hrest. cbn [append]. reflexivity.
    + destruct Hpost as [-> | (x & post' & -> & Hx)]; [now left|].
      right. exists post'. f_equal.
      unfold not_dquote in Hx. apply negb_false_iff, Ascii.eqb_eq in Hx.
      exact Hx.
    + intros. cbn [String.length]. lia.
Qed.

(** X10 holds for the sample record: the link runs to the closing
    quote. *)
Lemma re_search_ftp_leftmost_longest_witness :
  re_search_ftp xml_with_link
  = Some "ftp://ftp.ncbi.nlm.nih.gov/geo/series/GSE1nnn/GSE1234/"
  /\ matches_ftp_pattern "ftp://ftp.ncbi.nlm.nih.gov/geo/series/GSE1nnn/GSE1234/".
Proof.
  assert (H : re_search_ftp xml_with_link
              = Some "ftp://ftp.ncbi.nlm.nih.gov/geo/series/GSE1nnn/GSE1234/")
    by reflexivity.
  split; [exact H|].
  apply (re_search_ftp_leftmost_longest xml_with_link H).
Defined.

(* ================================================================= *)
(** ** The shape of a whole request *)

Lemma downloads_class (env : Env) (details : list string) (dir : string)
      (r : result response) (dl : trace) :
  downloads env details dir r dl ->
  Forall (fun ev => is_download_event ev = true) dl.
Proof.
  intros (h0 & Hd).
  assert (Hem : emits is_download_event (download_into env dir details)).
  { apply emits_bind; [apply download_all_emits | intros; apply emits_ret]. }
  destruct (Hem h0) as (dl' & Heq & Hall).
  rewrite Hd in Heq. cbn [snd] in Heq. apply app_inv_head in Heq. now subst dl'.
Qed.

Lemma downloads_result (env : Env) (details : list string) (dir : string)
      (resp : response) (dl : trace) :
  downloads env details dir (Ok resp) dl -> resp = resp_success.
Proof.
  intros (h0 & Hd). unfold download_into, bind in Hd.
  destruct (download_all env dir 1 details h0) as [[[]|e] h1];
    [|discriminate Hd].
  cbn in Hd. now injection Hd as <- _.
Qed.

(** A request either ends before the destination is looked at, having
    made HTTP calls only, or goes one of the nine ways of [Saved]. *)
Lemma run_shape (API_KEY : option string) (env : Env) (req : request) :
  Forall (fun ev => is_http ev || is_log_error ev = true)
         (snd (fetch_rnaseq_data API_KEY env req))
  \/ exists h details r tl logs,
      snd (fetch_rnaseq_data API_KEY env req) = h ++ tl ++ logs
      /\ Forall (fun ev => is_http ev = true) h
      /\ Saved env details r tl
      /\ Forall (fun ev => is_log_error ev = true) logs
      /\ fst (fetch_rnaseq_data API_KEY env req) = fst (conclude (r, []))
      /\ (forall resp, r = Ok resp -> logs = [])
      /\ (forall e, r = Raise e -> logs = [] -> e = BaseExceptionOnly).
Proof.
  assert (Hlogs : forall logs, Forall (fun l => is_log_error l = true) logs ->
                    Forall (fun ev => is_http ev || is_log_error ev = true) logs).
  { intro logs. apply Forall_impl. intros ev ->. apply orb_true_r. }
  assert (Hoks : forall oks, Forall (fun ev => is_http ev = true)
                                    (map (ok_event API_KEY) oks)).
  { intro oks. apply Forall_forall. intros ev Hi.
    apply in_map_iff in Hi. destruct Hi as (p & <- & _). reflexivity. }
  by_paths API_KEY env req.
  - left. repeat constructor.
  - left. constructor.
  - left. destruct (except_clauses_split e [search_event API_KEY q out])
      as (logs & -> & Hl & _).
    cbn [snd app]. constructor; [reflexivity | now apply Hlogs].
  - left. repeat constructor.
  - left. destruct (except_clauses_split e [search_event API_KEY q out])
      as (logs & -> & Hl & _).
    cbn [snd app]. constructor; [reflexivity | now apply Hlogs].
  - left. destruct (except_clauses_split e
                      (search_event API_KEY q out
                         :: map (ok_event API_KEY) oks
                         ++ [detail_event API_KEY i fout]))
      as (logs & -> & Hl & _).
    cbn [snd]. apply Forall_app. split; [|now apply Hlogs].
    constructor; [reflexivity|]. apply Forall_app. split; [|repeat constructor].
    eapply Forall_impl; [|apply Hoks]. intros ev ->. reflexivity.
  - right.
    set (h := search_event API_KEY q out :: map (ok_event API_KEY) oks).
    destruct (save_studies_Saved env (map (fun p => text (snd p)) oks) h)
      as (r & tl & Hs & HS).
    rewrite Hs.
    exists h, (map (fun p => text (snd p)) oks), r, tl.
    destruct r as [resp|e]; cbn [conclude].
    + exists []. rewrite app_nil_r. cbn [fst snd].
      repeat split; try assumption; try constructor; try reflexivity.
      * apply Hoks.
      * discriminate.
    + destruct (except_clauses_split e (h ++ tl)) as (logs & Hex & Hl & Hb).
      exists logs. rewrite Hex. cbn [fst snd]. rewrite <- app_assoc.
      repeat split; try assumption; try reflexivity.
      * constructor; [reflexivity | apply Hoks].
      * discriminate.
      * intros e' [= <-]. exact Hb.
Qed.

(* ================================================================= *)
(** ** The destination directory *)

Lemma in_skip_l {A} (P : A -> bool) (l1 l2 : list A) (x : A) :
  Forall (fun y => P y = false) l1 -> In x (l1 ++ l2) -> P x = true -> In x l2.
Proof.
  intros Hl Hin Hx. apply in_app_or in Hin. destruct Hin as [Hin | Hin];
    [|exact Hin].
  rewrite Forall_forall in Hl. apply Hl in Hin. congruence.
Qed.

Lemma in_skip_r {A} (P : A -> bool) (l1 l2 : list A) (x : A) :
  Forall (fun y => P y = false) l2 -> In x (l1 ++ l2) -> P x = true -> In x l1.
Proof.
  intros Hl Hin Hx. apply in_app_or in Hin. destruct Hin as [Hin | Hin];
    [exact Hin|].
  rewrite Forall_forall in Hl. apply Hl in Hin. congruence.
Qed.

(** From a class of events to the events outside a test. *)
Ltac off_class H :=
  eapply Forall_impl; [|exact H];
  let ev := fresh "ev" in
  let Hev := fresh "Hev" in
  intros ev Hev; destruct ev; cbn in Hev |- *;
  repeat match goal with b : bool |- _ => destruct b end;
  first [reflexivity | discriminate Hev].

(** X11.  When the base directory does not exist, it is created right
    after the probe, without the operator being asked and without
    anything being deleted. *)
Theorem fresh_directory_is_created_without_asking :
  forall (API_KEY : option string) (env : Env) (req : request),
    In (EvPathExists base_dir false) (snd (fetch_rnaseq_data API_KEY env req)) ->
    Forall (fun ev => asks_or_deletes ev = false)
           (snd (fetch_rnaseq_data API_KEY env req))
    /\ exists pre mk post,
        snd (fetch_rnaseq_data API_KEY env req)
        = pre ++ EvPathExists base_dir false :: EvMakedirs base_dir false mk :: post.
Proof.
  intros API_KEY env req Hin.
  destruct (run_shape API_KEY env req)
    as [Hall | (h & details & r & tl & logs & Htr & Hh & HS & Hlogs & _)].
  - exfalso. rewrite Forall_forall in Hall. apply Hall in Hin. discriminate Hin.
  - rewrite Htr in *.
    assert (Hh' : Forall (fun ev => is_fresh_probe ev = false) h) by off_class Hh.
    assert (Hl' : Forall (fun ev => is_fresh_probe ev = false) logs)
      by off_class Hlogs.
    apply (in_skip_l is_fresh_probe _ _ Hh') in Hin; [|reflexivity].
    apply (in_skip_r is_fresh_probe _ _ Hl') in Hin; [|reflexivity].
    assert (Hha : Forall (fun ev => asks_or_deletes ev = false) h) by off_class Hh.
    assert (Hla : Forall (fun ev => asks_or_deletes ev = false) logs)
      by off_class Hlogs.
    inversion HS; subst;
      try (exfalso;
           repeat (destruct Hin as [Hin | Hin]; [discriminate Hin|]);
           try contradiction;
           match goal with
           | Hd : downloads _ _ _ _ ?dl |- _ =>
               apply downloads_class in Hd;
               assert (Hdl : Forall (fun ev => is_fresh_probe ev = false) dl)
                 by off_class Hd;
               rewrite Forall_forall in Hdl; apply Hdl in Hin; discriminate Hin
           end).
    + split.
      * apply Forall_app. split; [exact Hha|]. apply Forall_app. split; [|exact Hla].
        repeat constructor.
      * exists h, (Raise e), logs. reflexivity.
    + split.
      * apply Forall_app. split; [exact Hha|]. apply Forall_app. split; [|exact Hla].
        match goal with
        | Hd : downloads _ _ _ _ ?dl |- _ =>
            apply downloads_class in Hd;
            assert (Hdl : Forall (fun ev => asks_or_deletes ev = false) dl)
              by off_class Hd
        end.
        repeat constructor. exact Hdl.
      * exists h, (Ok tt), (dl ++ logs). reflexivity.
Qed.

(** X11 holds in a world where the directory is new. *)
Lemma fresh_directory_is_created_without_asking_witness :
  In (EvPathExists base_dir false)
     (snd (fetch_rnaseq_data None
             (scripted two_ids (always xml_without_link) false "n") req_mouse))
  /\ Forall (fun ev => asks_or_deletes ev = false)
            (snd (fetch_rnaseq_data None
                    (scripted two_ids (always xml_without_link) false "n")
                    req_mouse)).
Proof.
  assert (Hin : In (EvPathExists base_dir false)
                   (snd (fetch_rnaseq_data None
                           (scripted two_ids (always xml_without_link) false "n")
                           req_mouse)))
    by (do 3 right; left; reflexivity).
  split; [exact Hin|].
  apply (fresh_directory_is_created_without_asking None
           (scripted two_ids (always xml_without_link) false "n") req_mouse Hin).
Defined.

(** Split a membership in a listed trace into its cases. *)
Ltac walk Hin :=
  cbn [app In] in Hin; unfold prompt_event in Hin;
  repeat (destruct Hin as [Hin | Hin]);
  try contradiction; try discriminate Hin.

Ltac not_in_downloads P Hin :=
  match goal with
  | Hd : downloads _ _ _ _ ?dl |- _ =>
      let Hc := fresh "Hc" in
      let Hdl := fresh "Hdl" in
      pose proof (downloads_class Hd) as Hc;
      assert (Hdl : Forall (fun ev => P ev = false) dl) by off_class Hc;
      rewrite Forall_forall in Hdl; apply Hdl in Hin; discriminate Hin
  end.

(** X12.  A directory is deleted only if it is the base directory, it
    exists, and the operator has just answered s (in either case) to
    the prompt: the deletion comes right after that answer. *)
Theorem nothing_is_deleted_without_consent :
  forall (API_KEY : option string) (env : Env) (req : request)
         (p : string) (rm : result unit),
    In (EvRmtree p rm) (snd (fetch_rnaseq_data API_KEY env req)) ->
    p = base_dir
    /\ exists pre a post,
        snd (fetch_rnaseq_data API_KEY env req)
        = pre ++ EvPathExists base_dir true :: prompt_event (Ok a)
              :: EvRmtree base_dir rm :: post
        /\ lower a = "s".
Proof.
  intros API_KEY env req p rm Hin.
  destruct (run_shape API_KEY env req)
    as [Hall | (h & details & r & tl & logs & Htr & Hh & HS & Hlogs & _)].
  - exfalso. rewrite Forall_forall in Hall. apply Hall in Hin. discriminate Hin.
  - rewrite Htr in *.
    assert (Hh' : Forall (fun ev => is_rmtree ev = false) h) by off_class Hh.
    assert (Hl' : Forall (fun ev => is_rmtree ev = false) logs) by off_class Hlogs.
    apply (in_skip_l is_rmtree _ _ Hh') in Hin; [|reflexivity].
    apply (in_skip_r is_rmtree _ _ Hl') in Hin; [|reflexivity].
    inversion HS; subst; walk Hin;
      try discriminate Hin; try (exfalso; not_in_downloads is_rmtree Hin);
      injection Hin as <- <-;
      (split; [reflexivity|]);
      match goal with
      | Hs : String.eqb (lower ?a) "s" = true |- _ =>
          apply String.eqb_eq in Hs; exists h, a
      end.
    + exists logs. split; [reflexivity | assumption].
    + eexists. split; [reflexivity | assumption].
    + eexists. split; [reflexivity | assumption].
Qed.

(** X12 holds in a world where the directory exists and the operator
    types a capital S. *)
Lemma nothing_is_deleted_without_consent_witness :
  In (EvRmtree base_dir (Ok tt))
     (snd (fetch_rnaseq_data None
             (scripted two_ids (always xml_without_link) true "S") req_mouse))
  /\ exists pre a post,
      snd (fetch_rnaseq_data None
             (scripted two_ids (always xml_without_link) true "S") req_mouse)
      = pre ++ EvPathExists base_dir true :: prompt_event (Ok a)
            :: EvRmtree base_dir (Ok tt) :: post
      /\ lower a = "s".
Proof.
  assert (Hin : In (EvRmtree base_dir (Ok tt))
                   (snd (fetch_rnaseq_data None
                           (scripted two_ids (always xml_without_link) true "S")
                           req_mouse)))
    by (do 5 right; left; reflexivity).
  split; [exact Hin|].
  apply (nothing_is_deleted_without_consent None
           (scripted two_ids (always xml_without_link) true "S") req_mouse _ _ Hin).
Defined.

(** X13.  An answer to the prompt that is neither s nor n (in either
    case) is taken as a folder name: the next call creates, if need be,
    the answer joined to /home/caheri_salas, nothing is deleted, and
    an answer that starts with a slash is used as the directory
    itself. *)
Theorem other_answers_redirect_the_download :
  forall (API_KEY : option string) (env : Env) (req : request)
         (prompt a : string),
    In (EvInput prompt (Ok a)) (snd (fetch_rnaseq_data API_KEY env req)) ->
    lower a <> "s" -> lower a <> "n" ->
    Forall (fun ev => is_rmtree ev = false)
           (snd (fetch_rnaseq_data API_KEY env req))
    /\ (exists pre mk post,
           snd (fetch_rnaseq_data API_KEY env req)
           = pre ++ EvInput prompt (Ok a)
                 :: EvMakedirs (path_join "/home/caheri_salas" a) true mk :: post)
    /\ (startswith a "/" = true -> path_join "/home/caheri_salas" a = a).
Proof.
  intros API_KEY env req prompt a Hin Hs Hn.
  split; [|split].
  3: { intro Habs. unfold path_join. now rewrite Habs. }
  all: destruct (run_shape API_KEY env req)
    as [Hall | (h & details & r & tl & logs & Htr & Hh & HS & Hlogs & _)];
    [exfalso; rewrite Forall_forall in Hall; apply Hall in Hin; discriminate Hin|].
  all: rewrite Htr in *.
  all: assert (Hh' : Forall (fun ev => asks_or_deletes ev = false) h)
    by off_class Hh.
  all: assert (Hl' : Forall (fun ev => asks_or_deletes ev = false) logs)
    by off_class Hlogs.
  all: apply (in_skip_l asks_or_deletes _ _ Hh') in Hin; [|reflexivity].
  all: apply (in_skip_r asks_or_deletes _ _ Hl') in Hin; [|reflexivity].
  all: assert (Hhr : Forall (fun ev => is_rmtree ev = false) h) by off_class Hh.
  all: assert (Hlr : Forall (fun ev => is_rmtree ev = false) logs)
    by off_class Hlogs.
  all: inversion HS; subst; walk Hin;
    try discriminate Hin;
    try (exfalso; not_in_downloads asks_or_deletes Hin);
    injection Hin as <- <-;
    try (exfalso;
         match goal with
         | H : String.eqb (lower ?x) _ = true |- _ =>
             apply String.eqb_eq in H; contradiction
         end).
  - apply Forall_app. split; [exact Hhr|]. apply Forall_app. split; [|exact Hlr].
    repeat constructor.
  - apply Forall_app. split; [exact Hhr|]. apply Forall_app. split; [|exact Hlr].
    match goal with
    | Hd : downloads _ _ _ _ ?dl |- _ =>
        pose proof (downloads_class Hd) as Hc;
        assert (Hdl : Forall (fun ev => is_rmtree ev = false) dl) by off_class Hc
    end.
    repeat constructor. exact Hdl.
  - exists (h ++ [EvPathExists base_dir true]), (Raise e), logs.
    rewrite <- !app_assoc. reflexivity.
  - exists (h ++ [EvPathExists base_dir true]), (Ok tt), (dl ++ logs).
    rewrite <- !app_assoc. reflexivity.
Qed.

(** X13 holds when the operator types an absolute path. *)
Lemma other_answers_redirect_the_download_witness :
  In (EvInput (prompt_text base_dir) (Ok "/tmp/out"))
     (snd (fetch_rnaseq_data None
             (scripted two_ids (always xml_without_link) true "/tmp/out")
             req_mouse))
  /\ lower "/tmp/out" <> "s" /\ lower "/tmp/out" <> "n"
  /\ Forall (fun ev => is_rmtree ev = false)
            (snd (fetch_rnaseq_data None
                    (scripted two_ids (always xml_without_link) true "/tmp/out")
                    req_mouse)).
Proof.
  assert (Hin : In (EvInput (prompt_text base_dir) (Ok "/tmp/out"))
                   (snd (fetch_rnaseq_data None
                           (scripted two_ids (always xml_without_link) true
                                     "/tmp/out")
                           req_mouse)))
    by (do 4 right; left; reflexivity).
  assert (Hs : lower "/tmp/out" <> "s") by discriminate.
  assert (Hn : lower "/tmp/out" <> "n") by discriminate.
  split; [exact Hin|]. split; [exact Hs|]. split; [exact Hn|].
  apply (other_answers_redirect_the_download None
           (scripted two_ids (always xml_without_link) true "/tmp/out")
           req_mouse _ _ Hin Hs Hn).
Defined.

(* ================================================================= *)
(** ** Responses, and what they say about the request *)

Lemma harmless_http_or_log (l : trace) :
  Forall (fun ev => is_http ev || is_log_error ev = true) l ->
  Forall (fun ev => harmless ev = true) l.
Proof.
  apply Forall_impl. intros ev Hev. destruct ev; try discriminate Hev; reflexivity.
Qed.

(** X14.  A request answered with the 400 validation response, the 404
    no-data response or the cancellation message has done nothing but
    HTTP calls, the probe of the base directory and the prompt: no FTP
    traffic, and nothing deleted, created or written on disk. *)
Theorem early_answers_touch_nothing :
  forall (API_KEY : option string) (env : Env) (req : request) (r : response),
    fst (fetch_rnaseq_data API_KEY env req) = Responded r ->
    In r [resp_missing_organism; resp_no_data; resp_cancelled] ->
    Forall (fun ev => harmless ev = true)
           (snd (fetch_rnaseq_data API_KEY env req)).
Proof.
  intros API_KEY env req r Hr Hin.
  destruct (run_shape API_KEY env req)
    as [Hall | (h & details & r0 & tl & logs & Htr & Hh & HS & Hlogs & Hfst
                & Hok & _)].
  - now apply harmless_http_or_log.
  - rewrite Htr. rewrite Hfst in Hr.
    destruct r0 as [resp|e]; cbn [conclude fst] in Hr.
    + injection Hr as ->. rewrite (Hok r eq_refl), app_nil_r.
      apply Forall_app. split; [off_class Hh|].
      inversion HS; subst;
        try (match goal with
             | Hd : downloads _ _ _ _ _ |- _ =>
                 apply downloads_result in Hd; subst r
             end;
             exfalso; walk Hin).
      repeat constructor.
    + exfalso. apply except_clauses_status in Hr.
      walk Hin; subst r; discriminate Hr.
Qed.

(** X14 holds for a search that finds nothing. *)
Lemma early_answers_touch_nothing_witness :
  fst (fetch_rnaseq_data None (scripted [] (always xml_with_link) false "n")
                         req_mouse)
  = Responded resp_no_data
  /\ Forall (fun ev => harmless ev = true)
            (snd (fetch_rnaseq_data None
                    (scripted [] (always xml_with_link) false "n") req_mouse)).
Proof.
  assert (H : fst (fetch_rnaseq_data None
                     (scripted [] (always xml_with_link) false "n") req_mouse)
              = Responded resp_no_data) by reflexivity.
  split; [exact H|].
  apply (early_answers_touch_nothing None
           (scripted [] (always xml_with_link) false "n") req_mouse H).
  right; left; reflexivity.
Defined.

(** X15.  A request ends with one of the seven fixed responses, whose
    status is 200, 400, 404 or 500; the only exceptions that leave the
    handler are those outside [Exception], such as a keyboard
    interrupt. *)
Theorem responses_are_the_seven :
  forall (API_KEY : option string) (env : Env) (req : request),
    match fst (fetch_rnaseq_data API_KEY env req) with
    | Responded r => In r the_responses /\ In (status r) [200; 400; 404; 500]
    | Propagated e => e = BaseExceptionOnly
    end.
Proof.
  intros API_KEY env req.
  assert (Hex : forall e h,
             match fst (except_clauses e h) with
             | Responded r => In r the_responses /\ In (status r) [200; 400; 404; 500]
             | Propagated e' => e' = BaseExceptionOnly
             end).
  { intros e h. destruct e; cbn; auto 12. }
  by_paths API_KEY env req; try apply Hex; cbn [fst]; try (cbn; auto 12).
  destruct (save_studies_Saved env (map (fun p => text (snd p)) oks)
              (search_event API_KEY q out :: map (ok_event API_KEY) oks))
    as (r & tl & -> & HS).
  destruct r as [resp|e]; cbn [conclude]; [|apply Hex].
  cbn [fst].
  inversion HS; subst;
    try (match goal with
         | Hd : downloads _ _ _ _ _ |- _ =>
             apply downloads_result in Hd; subst resp
         end);
    cbn; auto 12.
Qed.

Lemma except_clauses_responded (e : exn) (h : trace) (r : response) :
  fst (except_clauses e h) = Responded r ->
  status r = 500
  /\ exists m, snd (except_clauses e h) = h ++ [EvLogError m e].
Proof.
  destruct e; cbn; intros [= <-]; (split; [reflexivity | eexists; reflexivity]).
Qed.

Lemma Saved_no_logs (env : Env) (details : list string)
      (r : result response) (tl : trace) :
  Saved env details r tl -> Forall (fun ev => is_log_error ev = false) tl.
Proof.
  intro HS. inversion HS; subst;
    try (match goal with
         | Hd : downloads _ _ _ _ ?dl |- _ =>
             apply downloads_class in Hd;
             assert (Hdl : Forall (fun ev => is_log_error ev = false) dl)
               by off_class Hd
         end);
    repeat constructor; assumption.
Qed.

Lemma Saved_ok_status (env : Env) (details : list string)
      (resp : response) (tl : trace) :
  Saved env details (Ok resp) tl -> status resp = 200.
Proof.
  intro HS. inversion HS; subst;
    try (match goal with
         | Hd : downloads _ _ _ _ _ |- _ => apply downloads_result in Hd; subst resp
         end);
    reflexivity.
Qed.

(** X16.  A response with status 500 comes with exactly one error line
    in the log, written as the last event of the request; a response
    with any other status comes with none. *)
Theorem every_500_is_logged_once :
  forall (API_KEY : option string) (env : Env) (req : request) (r : response),
    fst (fetch_rnaseq_data API_KEY env req) = Responded r ->
    (status r = 500 ->
     exists pre m e,
       snd (fetch_rnaseq_data API_KEY env req) = pre ++ [EvLogError m e]
       /\ Forall (fun ev => is_log_error ev = false) pre)
    /\ (status r <> 500 ->
        Forall (fun ev => is_log_error ev = false)
               (snd (fetch_rnaseq_data API_KEY env req))).
Proof.
  intros API_KEY env req r Hr.
  assert (Hoks : forall oks, Forall (fun ev => is_log_error ev = false)
                                    (map (ok_event API_KEY) oks)).
  { intro oks. apply Forall_forall. intros ev Hi.
    apply in_map_iff in Hi. destruct Hi as (p & <- & _). reflexivity. }
  assert (Hex : forall e h,
             fst (except_clauses e h) = Responded r ->
             Forall (fun ev => is_log_error ev = false) h ->
             (status r = 500 ->
              exists pre m e',
                snd (except_clauses e h) = pre ++ [EvLogError m e']
                /\ Forall (fun ev => is_log_error ev = false) pre)
             /\ (status r <> 500 ->
                 Forall (fun ev => is_log_error ev = false)
                        (snd (except_clauses e h)))).
  { intros e h He Hh. apply except_clauses_responded in He.
    destruct He as (Hst & m & ->). split; [|contradiction].
    intros _. now exists h, m, e. }
  by_paths API_KEY env req.
  - injection Hr as <-. split; [|intro H; now contradiction H].
    intros _. exists [], "Unexpected error: ", e. split; [reflexivity | constructor].
  - injection Hr as <-. split; [discriminate | constructor].
  - apply Hex; [exact Hr | repeat constructor].
  - injection Hr as <-. split; [discriminate | repeat constructor].
  - apply Hex; [exact Hr | repeat constructor].
  - apply Hex; [exact Hr|].
    constructor; [reflexivity|]. apply Forall_app. split; [apply Hoks|].
    repeat constructor.
  - set (h := search_event API_KEY q out :: map (ok_event API_KEY) oks) in *.
    assert (Hh : Forall (fun ev => is_log_error ev = false) h)
      by (constructor; [reflexivity | apply Hoks]).
    destruct (save_studies_Saved env (map (fun p => text (snd p)) oks) h)
      as (r0 & tl & Hs & HS).
    rewrite Hs in *.
    pose proof (Saved_no_logs HS) as Htl.
    destruct r0 as [resp|e]; cbn [conclude] in *.
    + injection Hr as ->. apply Saved_ok_status in HS.
      split; [intro H; rewrite HS in H; discriminate H|].
      intros _. cbn [snd]. now apply Forall_app.
    + apply Hex; [exact Hr | now apply Forall_app].
Qed.

(** X16 holds for the request whose second detail fetch is answered
    503. *)
Lemma every_500_is_logged_once_witness :
  fst (fetch_rnaseq_data None (scripted three_ids second_fails false "n") req_mouse)
  = Responded resp_ncbi_failure
  /\ status resp_ncbi_failure = 500
  /\ exists pre m e,
      snd (fetch_rnaseq_data None (scripted three_ids second_fails false "n")
                             req_mouse)
      = pre ++ [EvLogError m e]
      /\ Forall (fun ev => is_log_error ev = false) pre.
Proof.
  assert (H : fst (fetch_rnaseq_data None
                     (scripted three_ids second_fails false "n") req_mouse)
              = Responded resp_ncbi_failure) by reflexivity.
  split; [exact H|]. split; [reflexivity|].
  apply (every_500_is_logged_once None
           (scripted three_ids second_fails false "n") req_mouse H).
  reflexivity.
Defined.

(* ================================================================= *)
(** ** The download loop *)

Section DownloadLoop.

Variable env : Env.

Lemma download_study_skips (dir : string) (idx : nat) (study : string)
      (h : trace) :
  ~ has_ftp_match study -> download_study env dir idx study h = (Ok tt, h).
Proof.
  intro Hno. apply re_search_ftp_None_iff in Hno.
  unfold download_study. now rewrite Hno.
Qed.

Lemma download_all_skips (dir : string) (pre rest : list string) :
  Forall (fun s => ~ has_ftp_match s) pre ->
  forall idx h,
    download_all env dir idx (pre ++ rest) h
    = download_all env dir (idx + length pre) rest h.
Proof.
  induction 1 as [|study pre Hs _ IH]; intros idx h.
  - cbn [app length]. now rewrite Nat.add_0_r.
  - cbn [app length download_all].
    rewrite (bind_ok _ _ _ (download_study_skips dir idx h Hs)).
    rewrite IH. f_equal. lia.
Qed.

End DownloadLoop.



(* ================================================================= *)
(** ** Local files *)

Lemma opened_app (l1 l2 : trace) : opened (l1 ++ l2) = opened l1 ++ opened l2.
Proof.
  induction l1 as [|ev l1 IH]; [reflexivity|].
  destruct ev; cbn [app opened]; try exact IH.
  destruct out; [cbn [app]; now rewrite IH | exact IH].
Qed.

Lemma closed_app (l1 l2 : trace) : closed (l1 ++ l2) = closed l1 ++ closed l2.
Proof.
  induction l1 as [|ev l1 IH]; [reflexivity|].
  destruct ev; cbn [app closed]; try exact IH.
  cbn [app]. now rewrite IH.
Qed.

Lemma no_file_events (l : trace) :
  Forall (fun ev => is_file_event ev = false) l ->
  opened l = [] /\ closed l = [].
Proof.
  induction 1 as [|ev l Hev _ (IHo & IHc)]; [now split|].
  destruct ev; try discriminate Hev; now split.
Qed.

Section Balanced.

Context {A B : Type}.

Lemma bal_ret (a : A) : balanced (ret a).
Proof. intro h. exists []. cbn. now rewrite app_nil_r. Qed.

Lemma bal_bind (m : M A) (k : A -> M B) :
  balanced m -> (forall a, balanced (k a)) -> balanced (bind m k).
Proof.
  intros Hm Hk h. unfold bind.
  destruct (Hm h) as (evs & Heq & Hb).
  destruct (m h) as [[a|e] h']; cbn [snd] in Heq; subst h'.
  - destruct (Hk a (h ++ evs)) as (evs' & Heq' & Hb').
    exists (evs ++ evs'). rewrite Heq', app_assoc. split; [reflexivity|].
    now rewrite opened_app, closed_app, Hb, Hb'.
  - exists evs. now split.
Qed.

Lemma bal_perform (oracle : trace -> result A) (ev : result A -> event) :
  (forall out, is_file_event (ev out) = false) ->
  balanced (perform oracle ev).
Proof.
  intros Hev h. exists [ev (oracle h)]. split; [reflexivity|].
  destruct (no_file_events (l := [ev (oracle h)])) as (-> & ->);
    [repeat constructor; apply Hev | reflexivity].
Qed.

End Balanced.

Lemma bal_emit (ev : event) : is_file_event ev = false -> balanced (emit ev).
Proof.
  intros Hev h. exists [ev]. split; [reflexivity|].
  destruct (no_file_events (l := [ev])) as (-> & ->);
    [repeat constructor; exact Hev | reflexivity].
Qed.

Section BalancedDownload.

Variable env : Env.

(** One file: opened, transferred, closed whatever the transfer did. *)
Lemma bal_one_file {B} (p cmd : string) (k : unit -> M B) :
  (forall u, balanced (k u)) ->
  balanced (bind (open_wb env p)
                 (fun _ => bind (finally (ftp_retrbinary env cmd p) (EvClose p)) k)).
Proof.
  intros Hk h. unfold bind, open_wb, ftp_retrbinary, finally, perform.
  destruct (env_open_wb env h p) as [[]|e].
  - destruct (env_ftp_retrbinary env _ cmd p) as [[]|e].
    + match goal with
      | |- context [k tt ?h1] => destruct (Hk tt h1) as (evs & Heq & Hb)
      end.
      exists ([EvOpenWb p (Ok tt); EvFtpRetrbinary cmd p (Ok tt); EvClose p] ++ evs).
      split.
      * rewrite Heq. rewrite <- !app_assoc. reflexivity.
      * cbn [app opened closed]. now rewrite Hb.
    + exists [EvOpenWb p (Ok tt); EvFtpRetrbinary cmd p (Raise e); EvClose p].
      split; [cbn [snd]; rewrite <- !app_assoc; reflexivity | reflexivity].
  - exists [EvOpenWb p (Raise e)]. split; reflexivity.
Qed.

Lemma bal_download_files (study_dir : string) (files : list string) :
  balanced (download_files env study_dir files).
Proof.
  induction files as [|file rest IH]; cbn [download_files].
  - apply bal_ret.
  - apply bal_one_file. intros _.
    apply bal_bind; [apply bal_emit; reflexivity | intros; exact IH].
Qed.

Lemma bal_download_study (dir : string) (idx : nat) (study : string) :
  balanced (download_study env dir idx study).
Proof.
  unfold download_study.
  destruct (re_search_ftp study); [|apply bal_ret].
  unfold log_info, ftp_connect, ftp_login, ftp_cwd, ftp_nlst, makedirs, ftp_quit.
  repeat first [ apply bal_download_files
               | apply bal_emit; reflexivity
               | apply bal_perform; intros; reflexivity
               | apply bal_bind; [|intros] ].
Qed.

Lemma bal_download_all (dir : string) (details : list string) :
  forall idx, balanced (download_all env dir idx details).
Proof.
  induction details as [|study rest IH]; intro idx; cbn [download_all].
  - apply bal_ret.
  - apply bal_bind; [apply bal_download_study | intros; apply IH].
Qed.

Lemma downloads_balanced (details : list string) (dir : string)
      (r : result response) (dl : trace) :
  downloads env details dir r dl -> opened dl = closed dl.
Proof.
  intros (h0 & Hd).
  assert (Hb : balanced (download_into env dir details)).
  { apply bal_bind; [apply bal_download_all | intros; apply bal_ret]. }
  destruct (Hb h0) as (dl' & Heq & Hbal).
  rewrite Hd in Heq. cbn [snd] in Heq. apply app_inv_head in Heq. now subst dl'.
Qed.

End BalancedDownload.

(** X18.  Every file the handler opens for writing is closed, also when
    its transfer fails: in every request the files opened and the files
    closed are the same, in the same order. *)
Theorem opened_files_are_closed :
  forall (API_KEY : option string) (env : Env) (req : request),
    opened (snd (fetch_rnaseq_data API_KEY env req))
    = closed (snd (fetch_rnaseq_data API_KEY env req)).
Proof.
  intros API_KEY env req.
  destruct (run_shape API_KEY env req)
    as [Hall | (h & details & r & tl & logs & -> & Hh & HS & Hlogs & _)].
  - assert (H : Forall (fun ev => is_file_event ev = false)
                       (snd (fetch_rnaseq_data API_KEY env req)))
      by off_class Hall.
    destruct (no_file_events H) as (-> & ->). reflexivity.
  - assert (Hh' : Forall (fun ev => is_file_event ev = false) h) by off_class Hh.
    assert (Hl' : Forall (fun ev => is_file_event ev = false) logs)
      by off_class Hlogs.
    destruct (no_file_events Hh') as (Ho & Hc).
    destruct (no_file_events Hl') as (Ho' & Hc').
    rewrite !opened_app, !closed_app, Ho, Hc, Ho', Hc', !app_nil_r.
    cbn [app].
    inversion HS; subst;
      try (match goal with
           | Hd : downloads _ _ _ _ _ |- _ => apply downloads_balanced in Hd
           end);
      cbn [app opened closed]; try reflexivity; assumption.
Qed.



(* ================================================================= *)
(** ** Records without links; the order of the phases *)

Lemma fetched_texts_app (l1 l2 : trace) :
  fetched_texts (l1 ++ l2) = fetched_texts l1 ++ fetched_texts l2.
Proof.
  induction l1 as [|ev l1 IH]; [reflexivity|].
  destruct ev; cbn [app fetched_texts]; try exact IH.
  destruct out; [|exact IH].
  destruct (String.eqb url NCBI_FETCH_URL); [cbn [app]; now rewrite IH | exact IH].
Qed.

Lemma fetched_texts_ok_events (API_KEY : option string)
      (oks : list (pyval * http_response)) :
  fetched_texts (map (ok_event API_KEY) oks) = map (fun p => text (snd p)) oks.
Proof.
  induction oks as [|p oks IH]; [reflexivity|].
  cbn [map]. unfold ok_event at 1, detail_event.
  cbn [fetched_texts]. rewrite String.eqb_refl. now rewrite IH.
Qed.

Lemma fetched_texts_search (API_KEY : option string) (q : string)
      (out : result http_response) (l : trace) :
  fetched_texts (search_event API_KEY q out :: l) = fetched_texts l.
Proof.
  unfold search_event. cbn [fetched_texts].
  rewrite base_url_is_not_fetch_url. now destruct out.
Qed.

Lemma downloads_nothing (env : Env) (details : list string) (dir : string)
      (r : result response) (dl : trace) :
  Forall (fun s => ~ has_ftp_match s) details ->
  downloads env details dir r dl -> dl = [].
Proof.
  intros Hno (h0 & Hd). unfold download_into in Hd.
  pose proof (@download_all_skips env dir details [] Hno 1 h0) as Hskip.
  rewrite app_nil_r in Hskip. cbn [download_all] in Hskip.
  unfold bind in Hd. rewrite Hskip in Hd. cbn in Hd.
  injection Hd as _ Hd.
  apply (app_inv_head h0). rewrite app_nil_r. now symmetry.
Qed.

(** X20.  When none of the records fetched carries a link, the request
    contacts no FTP server and opens no local file, whatever else
    happens. *)
Theorem no_links_no_transfer :
  forall (API_KEY : option string) (env : Env) (req : request),
    Forall (fun s => ~ has_ftp_match s)
           (fetched_texts (snd (fetch_rnaseq_data API_KEY env req))) ->
    Forall (fun ev => is_ftp ev = false)
           (snd (fetch_rnaseq_data API_KEY env req))
    /\ Forall (fun ev => is_file_event ev = false)
              (snd (fetch_rnaseq_data API_KEY env req)).
Proof.
  intros API_KEY env req Hno.
  assert (Hgen : forall l,
             Forall (fun ev => is_http ev || is_log_error ev = true) l ->
             Forall (fun ev => is_ftp ev = false) l
             /\ Forall (fun ev => is_file_event ev = false) l).
  { intros l Hl. split; off_class Hl. }
  assert (Hlogs : forall logs, Forall (fun l => is_log_error l = true) logs ->
                    Forall (fun ev => is_http ev || is_log_error ev = true) logs).
  { intro logs. apply Forall_impl. intros ev ->. apply orb_true_r. }
  assert (Hoks : forall oks,
             Forall (fun ev => is_http ev || is_log_error ev = true)
                    (map (ok_event API_KEY) oks)).
  { intro oks. apply Forall_forall. intros ev Hi.
    apply in_map_iff in Hi. destruct Hi as (p & <- & _). reflexivity. }
  by_paths API_KEY env req.
  - apply Hgen. repeat constructor.
  - apply Hgen. constructor.
  - apply Hgen.
    destruct (except_clauses_split e [search_event API_KEY q out])
      as (logs & -> & Hl & _).
    cbn [snd app]. constructor; [reflexivity | now apply Hlogs].
  - apply Hgen. repeat constructor.
  - apply Hgen.
    destruct (except_clauses_split e [search_event API_KEY q out])
      as (logs & -> & Hl & _).
    cbn [snd app]. constructor; [reflexivity | now apply Hlogs].
  - apply Hgen.
    destruct (except_clauses_split e
                (search_event API_KEY q out
                   :: map (ok_event API_KEY) oks ++ [detail_event API_KEY i fout]))
      as (logs & -> & Hl & _).
    cbn [snd]. apply Forall_app. split; [|now apply Hlogs].
    constructor; [reflexivity|]. apply Forall_app. split; [apply Hoks|].
    repeat constructor.
  - set (h := search_event API_KEY q out :: map (ok_event API_KEY) oks) in *.
    destruct (save_studies_Saved env (map (fun p => text (snd p)) oks) h)
      as (r & tl & Hs & HS).
    rewrite Hs in *.
    assert (Htr : exists logs,
               snd (conclude (r, h ++ tl)) = h ++ tl ++ logs
               /\ Forall (fun l => is_log_error l = true) logs).
    { destruct r as [resp|e]; cbn [conclude].
      - exists []. rewrite app_nil_r. split; [reflexivity | constructor].
      - destruct (except_clauses_split e (h ++ tl)) as (logs & -> & Hl & _).
        exists logs. cbn [snd]. now rewrite <- app_assoc. }
    destruct Htr as (logs & Htr & Hl). rewrite Htr in *.
    assert (Hdetails : Forall (fun s => ~ has_ftp_match s)
                              (map (fun p => text (snd p)) oks)).
    { rewrite fetched_texts_app in Hno. apply Forall_app in Hno.
      destruct Hno as (Hno & _). unfold h in Hno.
      now rewrite fetched_texts_search, fetched_texts_ok_events in Hno. }
    assert (Hh : Forall (fun ev => is_http ev || is_log_error ev = true) h)
      by (constructor; [reflexivity | apply Hoks]).
    destruct (Hgen _ Hh) as (Hh1 & Hh2).
    destruct (Hgen _ (Hlogs _ Hl)) as (Hl1 & Hl2).
    assert (Htl : Forall (fun ev => is_ftp ev = false) tl
                  /\ Forall (fun ev => is_file_event ev = false) tl).
    { inversion HS; subst;
        try (match goal with
             | Hd : downloads _ _ _ _ ?dl |- _ =>
                 apply (downloads_nothing Hdetails) in Hd; subst dl
             end);
        split; repeat constructor. }
    destruct Htl as (Ht1 & Ht2).
    split; repeat (apply Forall_app; split); assumption.
Qed.

(** X20 holds in a world whose records have no links: the request
    succeeds without any transfer. *)
Lemma no_links_no_transfer_witness :
  Forall (fun s => ~ has_ftp_match s)
         (fetched_texts
            (snd (fetch_rnaseq_data None
                    (scripted two_ids (always xml_without_link) false "n")
                    req_mouse)))
  /\ Forall (fun ev => is_ftp ev = false)
            (snd (fetch_rnaseq_data None
                    (scripted two_ids (always xml_without_link) false "n")
                    req_mouse)).
Proof.
  assert (H : Forall (fun s => ~ has_ftp_match s)
                     (fetched_texts
                        (snd (fetch_rnaseq_data None
                                (scripted two_ids (always xml_without_link) false "n")
                                req_mouse)))).
  { repeat constructor; apply re_search_ftp_None_iff; reflexivity. }
  split; [exact H|].
  apply (no_links_no_transfer None
           (scripted two_ids (always xml_without_link) false "n") req_mouse H).
Defined.

(** X21.  The destination directory is looked at only once every
    identifier has been fetched successfully, and no HTTP call is made
    afterwards: whenever a request probes a directory, everything
    before the probe is an HTTP call that went well, one detail fetch
    was issued per identifier of the search result, in order, and
    nothing after the probe is an HTTP call. *)
Theorem disk_phase_follows_all_fetches :
  forall (API_KEY : option string) (env : Env) (req : request)
         (p : string) (b : bool),
    In (EvPathExists p b) (snd (fetch_rnaseq_data API_KEY env req)) ->
    exists pre post ids,
      snd (fetch_rnaseq_data API_KEY env req) = pre ++ EvPathExists p b :: post
      /\ Forall (fun ev => is_http ev = true) pre
      /\ Forall (fun ev => went_wrong ev = false) pre
      /\ Forall (fun ev => is_http ev = false) post
      /\ identifiers (snd (fetch_rnaseq_data API_KEY env req)) = Some ids
      /\ issued_ids (snd (fetch_rnaseq_data API_KEY env req)) = ids.
Proof.
  intros API_KEY env req p b Hin.
  by_paths API_KEY env req.
  - exfalso. destruct Hin as [H | []]; discriminate H.
  - destruct Hin.
  - exfalso.
    destruct (except_clauses_split e [search_event API_KEY q out])
      as (logs & Hex & Hl & _).
    rewrite Hex in Hin. cbn [snd app] in Hin.
    destruct Hin as [H | Hin]; [discriminate H|].
    rewrite Forall_forall in Hl. apply Hl in Hin. discriminate Hin.
  - exfalso. destruct Hin as [H | []]; discriminate H.
  - exfalso.
    destruct (except_clauses_split e [search_event API_KEY q out])
      as (logs & Hex & Hl & _).
    rewrite Hex in Hin. cbn [snd app] in Hin.
    destruct Hin as [H | Hin]; [discriminate H|].
    rewrite Forall_forall in Hl. apply Hl in Hin. discriminate Hin.
  - exfalso.
    destruct (except_clauses_split e
                (search_event API_KEY q out
                   :: map (ok_event API_KEY) oks ++ [detail_event API_KEY i fout]))
      as (logs & Hex & Hl & _).
    rewrite Hex in Hin. cbn [snd] in Hin.
    apply in_app_or in Hin. destruct Hin as [[H | Hin] | Hin];
      [discriminate H | |].
    + apply in_app_or in Hin. destruct Hin as [Hin | [H | []]];
        [|discriminate H].
      apply ok_events_http in Hin. discriminate Hin.
    + rewrite Forall_forall in Hl. apply Hl in Hin. discriminate Hin.
  - set (h := search_event API_KEY q out :: map (ok_event API_KEY) oks) in *.
    destruct (finish_shape env (map (fun p => text (snd p)) oks) h)
      as (b0 & evs & l & Heq & Hl & Hcases).
    rewrite Heq in *.
    destruct (decode_search_Ok _ Hd) as (r0 & Hout & Hst).
    assert (Hh : Forall (fun ev => is_http ev = true) h).
    { constructor; [reflexivity|]. apply Forall_forall. intros ev Hmem.
      now apply ok_events_http in Hmem. }
    assert (Hw : Forall (fun ev => went_wrong ev = false) h).
    { constructor; [rewrite Hout; exact Hst | now apply ok_events_went_well]. }
    assert (Hevs : Forall (fun ev => is_http ev = false) (evs ++ l)
                   /\ ~ In (EvPathExists p b) (evs ++ l)).
    { assert (Hap : forall l', Forall (fun ev => after_prompt_event ev = true) l' ->
                               Forall (fun ev => is_http ev = false) l'
                               /\ ~ In (EvPathExists p b) l').
      { intros l' Hl'. split; [off_class Hl'|].
        intro Hmem. rewrite Forall_forall in Hl'. apply Hl' in Hmem. discriminate Hmem. }
      assert (Hll : Forall (fun ev => is_http ev = false) l
                    /\ ~ In (EvPathExists p b) l).
      { split; [off_class Hl|].
        intro Hmem. rewrite Forall_forall in Hl. apply Hl in Hmem. discriminate Hmem. }
      destruct Hll as (Hl1 & Hl2).
      destruct Hcases as [(_ & Hall) | (_ & a & evs' & -> & Hall & _)];
        destruct (Hap _ Hall) as (H1 & H2).
      - split; [now apply Forall_app|].
        intro Hmem. apply in_app_or in Hmem. tauto.
      - split; [cbn [app]; constructor; [reflexivity | now apply Forall_app]|].
        intro Hmem. cbn [app] in Hmem. destruct Hmem as [H | Hmem]; [discriminate H|].
        apply in_app_or in Hmem. tauto. }
    destruct Hevs as (Hpost & Hnot).
    apply in_app_or in Hin. destruct Hin as [Hin | [Hin | Hin]].
    + exfalso. rewrite Forall_forall in Hh. apply Hh in Hin. discriminate Hin.
    + injection Hin as <- <-.
      exists h, (evs ++ l), (map fst oks).
      split; [reflexivity|]. split; [exact Hh|]. split; [exact Hw|].
      split; [exact Hpost|]. split.
      * unfold h. cbn [app]. rewrite (@identifiers_search API_KEY q _ _ _ Hd), Hi.
        reflexivity.
      * rewrite issued_ids_app. unfold h.
        rewrite issued_ids_search, issued_ids_ok_events.
        rewrite (issued_ids_no_http (l := EvPathExists base_dir b0 :: evs ++ l));
          [apply app_nil_r|].
        constructor; [reflexivity | exact Hpost].
    + contradiction.
Qed.

(** X21 holds in a world where the directory is new. *)
Lemma disk_phase_follows_all_fetches_witness :
  In (EvPathExists base_dir false)
     (snd (fetch_rnaseq_data None
             (scripted two_ids (always xml_without_link) false "n") req_mouse))
  /\ exists pre post ids,
      snd (fetch_rnaseq_data None
             (scripted two_ids (always xml_without_link) false "n") req_mouse)
      = pre ++ EvPathExists base_dir false :: post
      /\ Forall (fun ev => is_http ev = true) pre
      /\ Forall (fun ev => went_wrong ev = false) pre
      /\ Forall (fun ev => is_http ev = false) post
      /\ identifiers
           (snd (fetch_rnaseq_data None
                   (scripted two_ids (always xml_without_link) false "n")
                   req_mouse))
         = Some ids
      /\ issued_ids
           (snd (fetch_rnaseq_data None
                   (scripted two_ids (always xml_without_link) false "n")
                   req_mouse))
         = ids.
Proof.
  assert (Hin : In (EvPathExists base_dir false)
                   (snd (fetch_rnaseq_data None
                           (scripted two_ids (always xml_without_link) false "n")
                           req_mouse)))
    by (do 3 right; left; reflexivity).
  split; [exact Hin|].
  apply (disk_phase_follows_all_fetches None
           (scripted two_ids (always xml_without_link) false "n") req_mouse _ _ Hin).
Defined.
